(** * PMV prediction service (app.py): model and verified properties

    The service wraps a frozen regression model behind four HTTP endpoints.
    This development embeds the request handlers of [app.py] as executable
    functions and proves the behaviour of the comfort classifier, of the
    clamping step, of request validation and of the bounded reading history.

    Python values are modelled as follows.
    - A Python [float] is an IEEE-754 binary64 value: [spec_float] of the
      standard library, compared with [SFltb] and [SFleb].  Every binary64
      value is a [spec_float]; results stated for all [spec_float] therefore
      hold for every Python float, NaN and the infinities included.
    - A parsed JSON payload is the inductive type [json].
    - A handler runs in a monad that threads the two module globals and a
      log of the calls made to collaborators, and that can raise. *)

From Stdlib Require Import ZArith QArith Qpower Lqa List String Bool Lia SpecFloat.
Import ListNotations.

#[local] Open Scope string_scope.
#[local] Open Scope Z_scope.

(** ** Floating point values *)

Module PyFloat.

Definition float := spec_float.

(** Binary64 literals of the source, in canonical form
    (53-bit mantissa, exponent of the last mantissa bit). *)
Definition of_bits (neg : bool) (m : positive) (e : Z) : float :=
  S754_finite neg m e.

Definition one : float := of_bits false 4503599627370496 (-52).
Definition two : float := of_bits false 4503599627370496 (-51).
Definition three : float := of_bits false 6755399441055744 (-51).
Definition neg_one : float := SFopp one.
Definition neg_two : float := SFopp two.
Definition neg_three : float := SFopp three.
Definition zero : float := S754_zero false.
Definition nan : float := S754_nan.
Definition inf : float := S754_infinity false.
Definition neg_inf : float := S754_infinity true.

(** Python's [a < b] and [a <= b] on floats: false as soon as one side
    is NaN. *)
Definition lt (a b : float) : bool := SFltb a b.
Definition le (a b : float) : bool := SFleb a b.

Definition is_nan (a : float) : bool :=
  match a with S754_nan => true | _ => false end.

(** [float(n)] for a Python int: round to nearest even; the conversion
    overflows when the rounded value is not finite. *)
Definition of_Z (n : Z) : option float :=
  match binary_normalize 53 1024 n 0 false with
  | S754_infinity _ => None
  | f => Some f
  end.

(** numpy's element-wise maximum and minimum as [np.clip] uses them: a NaN
    first operand is returned as it is, otherwise the comparison decides. *)
Definition np_max (a b : float) : float :=
  if is_nan a then a else if lt b a then a else b.

Definition np_min (a b : float) : float :=
  if is_nan a then a else if lt a b then a else b.

(** [np.clip(x, lo, hi)] is [minimum(maximum(x, lo), hi)]. *)
Definition np_clip (x lo hi : float) : float :=
  np_min (np_max x lo) hi.

(** Membership in the closed interval [[-3.0, 3.0]]. *)
Definition within_pmv_range (x : float) : bool :=
  le neg_three x && le x three.

(** A non-NaN value is ranked by a triple compared lexicographically: the
    class (negative infinity, negative, zero, positive, positive infinity),
    then exponent and mantissa, both negated for negative values.  The
    comparisons of [SFcompare] are the comparisons of ranks. *)
Definition rank (x : float) : Z * Z * Z :=
  match x with
  | S754_nan => (0, 0, 0)
  | S754_infinity true => (-2, 0, 0)
  | S754_finite true m e => (-1, - e, - Zpos m)
  | S754_zero _ => (0, 0, 0)
  | S754_finite false m e => (1, e, Zpos m)
  | S754_infinity false => (2, 0, 0)
  end.

Definition lex_lt (a b : Z * Z * Z) : Prop :=
  let '(a1, a2, a3) := a in
  let '(b1, b2, b3) := b in
  a1 < b1 \/ (a1 = b1 /\ (a2 < b2 \/ (a2 = b2 /\ a3 < b3))).

Definition lex_le (a b : Z * Z * Z) : Prop :=
  let '(a1, a2, a3) := a in
  let '(b1, b2, b3) := b in
  a1 < b1 \/ (a1 = b1 /\ (a2 < b2 \/ (a2 = b2 /\ a3 <= b3))).

(** The values of the binary64 format: 53 bits of precision, exponents
    up to 1024. *)
Definition binary64 (x : float) : bool := valid_binary 53 1024 x.

Definition is_finite (x : float) : bool :=
  match x with
  | S754_zero _ | S754_finite _ _ _ => true
  | _ => false
  end.

(** The real number a finite value stands for, as a rational. *)
Definition to_Q (x : float) : Q :=
  match x with
  | S754_finite s m e =>
      ((if s then inject_Z (Zneg m) else inject_Z (Zpos m)) * 2 ^ e)%Q
  | _ => 0%Q
  end.

End PyFloat.

Import PyFloat.

(** ** The comfort classifier (app.py, lines 38-52) *)

(** [get_thermal_comfort_status]: the chained comparison [a < p < b] of
    Python is [a < p and p < b]. *)
Definition get_thermal_comfort_status (pmv : float) : string :=
  if lt neg_one pmv && lt pmv one then "Normal"
  else if lt neg_two pmv && le pmv neg_one then "A bit Cool"
  else if lt neg_three pmv && le pmv neg_two then "Cool"
  else if le pmv neg_three then "Cold"
  else if le one pmv && lt pmv two then "A bit Warm"
  else if le two pmv && lt pmv three then "Warm"
  else "Hot".

(** The classifier as the specification words it: a table of conditions
    and labels read from the top, the first row that matches wins, and a
    label for the case that no row matches. *)
Definition comfort_rows : list ((float -> bool) * string) :=
  [ (fun p => lt neg_one p && lt p one,        "Normal");
    (fun p => lt neg_two p && le p neg_one,    "A bit Cool");
    (fun p => lt neg_three p && le p neg_two,  "Cool");
    (fun p => le p neg_three,                  "Cold");
    (fun p => le one p && lt p two,            "A bit Warm");
    (fun p => le two p && lt p three,          "Warm") ].

Fixpoint first_match (rows : list ((float -> bool) * string))
    (otherwise : string) (p : float) : string :=
  match rows with
  | [] => otherwise
  | (cond, label) :: rest =>
      if cond p then label else first_match rest otherwise p
  end.

Definition classify_table (p : float) : string :=
  first_match comfort_rows "Hot" p.

(** No explicit range condition of the table holds. *)
Definition no_row_matches (p : float) : bool :=
  forallb (fun row => negb (fst row p)) comfort_rows.

(** ** Python values, exceptions and the handler monad *)

Module Py.

#[local] Set Warnings "-register-all".

(** A payload as [request.get_json()] returns it; [JNull] is [None]. *)
Inductive json : Type :=
| JNull
| JBool (b : bool)
| JInt (n : Z)
| JFloat (f : float)
| JStr (s : string)
| JArr (items : list json)
| JObj (members : list (string * json)).

(** The values stored in the reading dictionaries. *)
Inductive value : Type :=
| VNone
| VFloat (f : float)
| VStr (s : string).

(** A Python [dict] with string keys, in insertion order. *)
Definition dict := list (string * value).

Inductive exn_class : Type :=
| ValueError | TypeError | KeyError | IndexError | OverflowError
| OtherException.

(** A raised exception: its class and [str(e)]. *)
Record exn : Type := mk_exn { exn_cls : exn_class; exn_msg : string }.

Inductive outcome (A : Type) : Type :=
| Returned (a : A)
| Raised (e : exn).
Arguments Returned {A} a.
Arguments Raised {A} e.

(** Calls a handler makes to its collaborators, in the order made. *)
Inductive event : Type :=
| EvGetJson
| EvFloat (v : json)
| EvTransform (x : list (list float))
| EvPredict (x : list (list float))
| EvNow
| EvPrintPrediction (input scaled : list (list float)) (pmv : float)
    (tc : string)
| EvPrintError (msg : string).

(** The two module globals of app.py. *)
Record globals : Type := mk_globals {
  latest_sensor_data : dict;
  sensor_data_history : list dict
}.

Record world : Type := mk_world { glob : globals; log : list event }.

(** State is kept when an exception propagates, as in Python. *)
Definition M (A : Type) : Type := world -> outcome A * world.

Definition ret {A} (a : A) : M A := fun w => (Returned a, w).

Definition bind {A B} (c : M A) (k : A -> M B) : M B :=
  fun w =>
    match c w with
    | (Returned a, w') => k a w'
    | (Raised e, w') => (Raised e, w')
    end.

Definition raise {A} (cls : exn_class) (msg : string) : M A :=
  fun w => (Raised (mk_exn cls msg), w).

(** [try: body except <classes>: handler]. *)
Definition try_except {A} (body : M A) (catches : exn_class -> bool)
    (handler : exn -> M A) : M A :=
  fun w =>
    match body w with
    | (Raised e, w') =>
        if catches (exn_cls e) then handler e w' else (Raised e, w')
    | r => r
    end.

Definition lift {A} (o : outcome A) : M A := fun w => (o, w).

Definition emit (ev : event) : M unit :=
  fun w => (Returned tt, mk_world (glob w) (log w ++ [ev])).

Definition get_globals : M globals := fun w => (Returned (glob w), w).

Definition put_globals (g : globals) : M unit :=
  fun w => (Returned tt, mk_world g (log w)).

Declare Scope py_scope.
Delimit Scope py_scope with py.
Notation "x <- c ;; k" := (bind c (fun x => k))
  (at level 61, c at next level, right associativity) : py_scope.
Notation "' pat <- c ;; k" :=
  (bind c (fun x => match x with pat => k end))
  (at level 61, pat pattern, c at next level, right associativity) : py_scope.
Notation "c ;; k" := (bind c (fun _ => k))
  (at level 61, right associativity) : py_scope.
#[local] Open Scope py_scope.

Definition is_ValueError (c : exn_class) : bool :=
  match c with ValueError => true | _ => false end.

(** Every class modelled here derives from [Exception], so
    [except Exception] catches each of them.  What derives from
    [BaseException] only ([KeyboardInterrupt], [SystemExit]) is outside the
    model: line 116 would let it through, and nothing below speaks of
    it. *)
Definition is_Exception (c : exn_class) : bool := true.

Definition type_name (v : json) : string :=
  match v with
  | JNull => "NoneType"
  | JBool _ => "bool"
  | JInt _ => "int"
  | JFloat _ => "float"
  | JStr _ => "str"
  | JArr _ => "list"
  | JObj _ => "dict"
  end.

Definition is_substring (needle hay : string) : bool :=
  match String.index 0 needle hay with Some _ => true | None => false end.

Definition json_is_str (key : string) (v : json) : bool :=
  match v with JStr s => String.eqb s key | _ => false end.

Definition has_key (key : string) (members : list (string * json)) : bool :=
  existsb (fun kv => String.eqb (fst kv) key) members.

(** [key in data]: key membership for a dict, element membership for a
    list, substring test for a str, [TypeError] for the other types. *)
Definition py_contains (data : json) (key : string) : M bool :=
  match data with
  | JObj members => ret (has_key key members)
  | JArr items => ret (existsb (json_is_str key) items)
  | JStr s => ret (is_substring key s)
  | other =>
      raise TypeError
        ("argument of type '" ++ type_name other ++ "' is not iterable")
  end.

Fixpoint lookup (key : string) (members : list (string * json))
    : option json :=
  match members with
  | [] => None
  | (k, v) :: rest => if String.eqb k key then Some v else lookup key rest
  end.

(** [data[key]] for a string [key]. *)
Definition py_getitem (data : json) (key : string) : M json :=
  match data with
  | JObj members =>
      match lookup key members with
      | Some v => ret v
      | None => raise KeyError ("'" ++ key ++ "'")
      end
  | JArr _ => raise TypeError "list indices must be integers or slices, not str"
  | JStr _ => raise TypeError "string indices must be integers, not 'str'"
  | other =>
      raise TypeError ("'" ++ type_name other ++ "' object is not subscriptable")
  end.

(** [float(v)].  [parse] is Python's parser of float literals in a str
    ([None] when it rejects the text). *)
Definition py_float (parse : string -> option float) (v : json) : M float :=
  emit (EvFloat v) ;;
  match v with
  | JFloat f => ret f
  | JInt n =>
      match PyFloat.of_Z n with
      | Some f => ret f
      | None => raise OverflowError "int too large to convert to float"
      end
  | JBool b => ret (if b then PyFloat.one else PyFloat.zero)
  | JStr s =>
      match parse s with
      | Some f => ret f
      | None =>
          raise ValueError ("could not convert string to float: '" ++ s ++ "'")
      end
  | other =>
      raise TypeError
        ("float() argument must be a string or a real number, not '"
           ++ type_name other ++ "'")
  end.

(** [[x for x in xs if x not in data]]. *)
Fixpoint keys_not_in (data : json) (xs : list string) : M (list string) :=
  match xs with
  | [] => ret []
  | x :: rest =>
      present <- py_contains data x ;;
      tail <- keys_not_in data rest ;;
      ret (if present then tail else x :: tail)
  end.

(** [a[0]] on a sequence. *)
Definition item0 {A} (a : list A) : M A :=
  match a with
  | x :: _ => ret x
  | [] => raise IndexError "index 0 is out of bounds for axis 0 with size 0"
  end.

End Py.

(** ** The application (app.py) *)

Module App.
Import Py.
#[local] Open Scope py_scope.

(** The loaded artifacts.  The scaler maps a 2-D array to a 2-D array;
    the model maps the scaled array to its prediction array.  Either call
    may raise. *)
Definition sk_scaler := list (list float) -> outcome (list (list float)).
Definition keras_model := list (list float) -> outcome (list (list float)).

(** What the handlers read but never write: the two artifact handles
    ([None] when unavailable) and Python's parser of float literals. *)
Record env : Type := mk_env {
  model : option keras_model;
  scaler : option sk_scaler;
  float_of_str : string -> option float
}.

(** Lines 16-22: both artifacts are loaded inside one [try]; when either
    load raises, both handles become [None] and the module goes on. *)
Definition load_artifacts (load_model : outcome keras_model)
    (load_scaler : outcome sk_scaler)
    : option keras_model * option sk_scaler :=
  match load_model with
  | Raised _ => (None, None)
  | Returned m =>
      match load_scaler with
      | Raised _ => (None, None)
      | Returned s => (Some m, Some s)
      end
  end.

(** Lines 25-35: the globals as the module creates them. *)
Definition initial_latest : dict :=
  [ ("temperature", VNone); ("humidity", VNone); ("air_flow", VNone);
    ("mrt", VNone); ("pmv", VNone); ("thermal_comfort", VNone) ].

Definition initial_globals : globals := mk_globals initial_latest [].

(** The process after start-up: its environment and its globals. *)
Definition startup (load_model : outcome keras_model)
    (load_scaler : outcome sk_scaler) (parse : string -> option float)
    : env * globals :=
  let '(m, s) := load_artifacts load_model load_scaler in
  (mk_env m s parse, initial_globals).

(** A response: the jsonified body and the HTTP status. *)
Inductive body : Type :=
| BObj (d : dict)
| BArr (l : list dict).

Record response : Type := mk_response { resp_body : body; resp_status : Z }.

Definition jsonify_error (msg : string) (status : Z) : response :=
  mk_response (BObj [("error", VStr msg)]) status.

(** What one POST /predict brings: the result of [request.get_json()] and
    the wall clock reading formatted by [strftime]. *)
Record request : Type := mk_request {
  req_json : outcome json;
  req_now : string
}.

Definition get_json (r : request) : M json :=
  emit EvGetJson ;; lift (req_json r).

Definition now_strftime (r : request) : M string :=
  emit EvNow ;; ret (req_now r).

Definition scaler_transform (s : sk_scaler) (x : list (list float))
    : M (list (list float)) :=
  emit (EvTransform x) ;; lift (s x).

Definition model_predict (m : keras_model) (x : list (list float))
    : M (list (list float)) :=
  emit (EvPredict x) ;; lift (m x).

Definition required_fields : list string :=
  ["temperature"; "humidity"; "air_flow"; "mrt"].

Definition history_limit : nat := 100.

(** Lines 95-103: the reading stored for one prediction. *)
Definition make_reading (time : string) (suhu humidity air_flow mrt : float)
    (pmv_value : float) (tc_status : string) : dict :=
  [ ("time", VStr time);
    ("temperature", VFloat suhu);
    ("humidity", VFloat humidity);
    ("air_flow", VFloat air_flow);
    ("mrt", VFloat mrt);
    ("pmv", VFloat pmv_value);
    ("thermal_comfort", VStr tc_status) ].

(** Line 95: [latest_sensor_data = {...}]. *)
Definition set_latest (d : dict) : M unit :=
  g <- get_globals ;;
  put_globals (mk_globals d (sensor_data_history g)).

(** Line 106: [sensor_data_history.append(latest_sensor_data)]. *)
Definition history_append_latest : M unit :=
  g <- get_globals ;;
  put_globals
    (mk_globals (latest_sensor_data g)
       (sensor_data_history g ++ [latest_sensor_data g])).

(** [sensor_data_history.pop(0)]. *)
Definition history_pop0 : M unit :=
  g <- get_globals ;;
  match sensor_data_history g with
  | [] => raise IndexError "pop from empty list"
  | _ :: rest => put_globals (mk_globals (latest_sensor_data g) rest)
  end.

(** Lines 109-110. *)
Definition history_trim : M unit :=
  g <- get_globals ;;
  if Nat.ltb history_limit (List.length (sensor_data_history g))
  then history_pop0
  else ret tt.

(** Lines 71-77: the four coercions, in source order, under
    [except ValueError]; [inl] is the early return of the handler. *)
Definition coerce_fields (E : env) (data : json)
    : M (response + (float * float * float * float)) :=
  try_except
    ( t <- py_getitem data "temperature" ;;
      suhu <- py_float (float_of_str E) t ;;
      h <- py_getitem data "humidity" ;;
      humidity <- py_float (float_of_str E) h ;;
      a <- py_getitem data "air_flow" ;;
      air_flow <- py_float (float_of_str E) a ;;
      m <- py_getitem data "mrt" ;;
      mrt <- py_float (float_of_str E) m ;;
      ret (inr (suhu, humidity, air_flow, mrt)) )
    is_ValueError
    (fun _ => ret (inl (jsonify_error "Semua parameter harus berupa angka!" 400))).

(** Lines 79-85: the feature array, scaling, inference and the scalar
    [float(prediction[0][0])]. *)
Definition infer (mdl : keras_model) (scl : sk_scaler)
    (input_data : list (list float)) : M (list (list float) * float) :=
  input_scaled <- scaler_transform scl input_data ;;
  prediction <- model_predict mdl input_scaled ;;
  row0 <- item0 prediction ;;
  raw <- item0 row0 ;;
  ret (input_scaled, raw).

(** Lines 87-114: clamping, classification, the update of the globals
    and the response. *)
Definition clamp_and_store (r : request) (suhu humidity air_flow mrt : float)
    (input_scaled : list (list float)) (raw : float) : M response :=
  let pmv_value := np_clip raw neg_three three in
  let tc_status := get_thermal_comfort_status pmv_value in
  time <- now_strftime r ;;
  set_latest (make_reading time suhu humidity air_flow mrt pmv_value tc_status) ;;
  history_append_latest ;;
  history_trim ;;
  emit (EvPrintPrediction [[suhu; humidity; air_flow; mrt]] input_scaled
          pmv_value tc_status) ;;
  ret (mk_response
         (BObj [("pmv", VFloat pmv_value); ("thermal_comfort", VStr tc_status)])
         200).

(** Lines 63-118: the body of [predict] under [except Exception]. *)
Definition predict_body (E : env) (mdl : keras_model) (scl : sk_scaler)
    (r : request) : M response :=
  try_except
    ( data <- get_json r ;;
      missing_fields <- keys_not_in data required_fields ;;
      match missing_fields with
      | _ :: _ =>
          ret (jsonify_error
                 ("Parameter berikut harus diisi: "
                    ++ String.concat ", " missing_fields) 400)
      | [] =>
          parsed <- coerce_fields E data ;;
          match parsed with
          | inl early => ret early
          | inr (suhu, humidity, air_flow, mrt) =>
              '(input_scaled, raw) <-
                infer mdl scl [[suhu; humidity; air_flow; mrt]] ;;
              clamp_and_store r suhu humidity air_flow mrt input_scaled raw
          end
      end )
    is_Exception
    (fun e =>
       emit (EvPrintError ("Error pada prediksi: " ++ exn_msg e)) ;;
       ret (jsonify_error (exn_msg e) 500)).

(** Lines 58-118: POST /predict. *)
Definition predict (E : env) (r : request) : M response :=
  match model E, scaler E with
  | Some mdl, Some scl => predict_body E mdl scl r
  | _, _ => ret (jsonify_error "Model atau scaler tidak dimuat dengan benar!" 500)
  end.

(** Lines 54-56: GET /. *)
Definition home : M response :=
  ret (mk_response (BObj [("message", VStr "PMV Prediction API is running!")]) 200).

(** Lines 121-123: GET /get-sensor-data. *)
Definition get_sensor_data : M response :=
  g <- get_globals ;;
  ret (mk_response (BObj (latest_sensor_data g)) 200).

(** Lines 126-128: GET /get-sensor-data-history. *)
Definition get_sensor_data_history : M response :=
  g <- get_globals ;;
  ret (mk_response (BArr (sensor_data_history g)) 200).

(** The requests the service routes. *)
Inductive op : Type :=
| Home
| Predict (r : request)
| GetSensorData
| GetSensorDataHistory.

Definition handler (E : env) (o : op) : M response :=
  match o with
  | Home => home
  | Predict r => predict E r
  | GetSensorData => get_sensor_data
  | GetSensorDataHistory => get_sensor_data_history
  end.

(** What serving one request yields: the response, or the exception that
    left the handler; the globals afterwards; the collaborator calls. *)
Record served : Type := mk_served {
  answer : outcome response;
  after : globals;
  calls : list event
}.

Definition serve (E : env) (g : globals) (o : op) : served :=
  let '(a, w) := handler E o (mk_world g []) in
  mk_served a (glob w) (log w).

(** The globals after a sequence of requests served one after another. *)
Definition run (E : env) (g : globals) (ops : list op) : globals :=
  fold_left (fun g o => after (serve E g o)) ops g.

(** The reading a request stored: what [latest_sensor_data] holds right
    after a prediction answered with status 200 (line 95 assigns it and
    line 106 appends that same dictionary to the history). *)
Definition stored_by (E : env) (g : globals) (o : op) : option dict :=
  match o with
  | Predict _ =>
      match answer (serve E g o) with
      | Returned rsp =>
          if Z.eqb (resp_status rsp) 200
          then Some (latest_sensor_data (after (serve E g o)))
          else None
      | Raised _ => None
      end
  | _ => None
  end.

(** The readings of the successful predictions of a run, oldest first. *)
Fixpoint stored_readings (E : env) (g : globals) (ops : list op)
    : list dict :=
  match ops with
  | [] => []
  | o :: rest =>
      match stored_by E g o with
      | Some d => d :: stored_readings E (after (serve E g o)) rest
      | None => stored_readings E (after (serve E g o)) rest
      end
  end.

End App.

(** ** Notions used to state the properties *)

Module Props.
Import Py App.

(** A computation that leaves the two globals as it found them. *)
Definition keeps_globals {A : Type} (c : M A) : Prop :=
  forall w, glob (snd (c w)) = glob w.

(** Lines 95-110 read as one step on the globals: the new reading becomes
    the latest one and goes to the end of the history, whose first entry
    is dropped when the history has grown past the limit. *)
Definition store_reading (d : dict) (g : globals) : globals :=
  let h := (sensor_data_history g ++ [d])%list in
  mk_globals d (if Nat.ltb history_limit (List.length h) then tl h else h).

(** The last [n] elements of a list, in their order. *)
Definition keep_last {A : Type} (n : nat) (l : list A) : list A :=
  skipn (List.length l - n) l.

(** A request was answered with status 200. *)
Definition succeeded (s : served) : bool :=
  match answer s with
  | Returned rsp => Z.eqb (resp_status rsp) 200
  | Raised _ => false
  end.

(** The globals after each request of a sequence, in order. *)
Fixpoint states (E : env) (g : globals) (ops : list op) : list globals :=
  match ops with
  | [] => []
  | o :: rest =>
      let g' := after (serve E g o) in
      g' :: states E g' rest
  end.

(** The field of a jsonified object. *)
Fixpoint field (key : string) (d : dict) : option value :=
  match d with
  | [] => None
  | (k, v) :: rest => if String.eqb k key then Some v else field key rest
  end.

(** The float stored or returned under "pmv" is not NaN and lies in
    [[-3.0, 3.0]]. *)
Definition pmv_in_range (d : dict) : bool :=
  match field "pmv" d with
  | Some (VFloat x) => within_pmv_range x
  | _ => false
  end.

(** How a POST /predict ends: either with an error status and the globals
    untouched, or with status 200 and exactly one reading stored. *)
Inductive predict_end (r : request) (g : globals)
    : outcome response -> globals -> Prop :=
| predict_failed (rsp : response) :
    resp_status rsp = 400 \/ resp_status rsp = 500 ->
    (exists msg, resp_body rsp = BObj [("error", VStr msg)]) ->
    predict_end r g (Returned rsp) g
| predict_stored (suhu humidity air_flow mrt raw : float) :
    let pmv := np_clip raw neg_three three in
    let tc := get_thermal_comfort_status pmv in
    predict_end r g
      (Returned (mk_response
                   (BObj [("pmv", VFloat pmv); ("thermal_comfort", VStr tc)])
                   200))
      (store_reading
         (make_reading (req_now r) suhu humidity air_flow mrt pmv tc) g).

(** The latest reading closes the history. *)
Definition latest_closes_history (g : globals) : Prop :=
  sensor_data_history g <> [] ->
  exists older, sensor_data_history g = (older ++ [latest_sensor_data g])%list.

(** A request that may change the globals: a prediction answered 200. *)
Definition mutating (E : env) (g : globals) (o : op) : bool :=
  match o with
  | Predict _ => succeeded (serve E g o)
  | _ => false
  end.

End Props.

(** ** A concrete deployment, for evaluating the handlers *)

Module Sample.
Import Py App.

(** The binary64 value of a small integer literal. *)
Definition fl (n : Z) : float := binary_normalize 53 1024 n 0 false.

(** 0.2 as Python reads the literal. *)
Definition fl_0_2 : float := S754_finite false 7205759403792794 (-55).

(** A parser that knows the one spelling the examples need. *)
Definition parse (s : string) : option float :=
  if String.eqb s "nan" then Some nan else None.

(** A scaler that leaves the features as they are. *)
Definition identity_scaler : sk_scaler := fun x => Returned x.

(** A regression model whose prediction is its first feature. *)
Definition first_feature_model : keras_model :=
  fun x =>
    match x with
    | (t :: _) :: _ => Returned [[t]]
    | _ => Raised (mk_exn ValueError "expected shape (None, 4)")
    end.

Definition file_not_found : exn :=
  mk_exn OtherException "No file or directory found at model_pmv.h5".

Definition loaded : env :=
  fst (startup (Returned first_feature_model) (Returned identity_scaler) parse).

Definition degraded : env :=
  fst (startup (Raised file_not_found) (Returned identity_scaler) parse).

Definition post (data : json) (now : string) : op :=
  Predict (mk_request (Returned data) now).

Definition reading (temperature : json) : json :=
  JObj [ ("temperature", temperature); ("humidity", JInt 55);
         ("air_flow", JFloat fl_0_2); ("mrt", JInt 27) ].

Definition two_keys : json :=
  JObj [ ("temperature", JInt 26); ("humidity", JInt 55) ].

Definition noon : string := "2024-01-01 12:00:00".

(** [n] requests whose temperatures count down from [n] to 1. *)
Fixpoint countdown (n : nat) : list op :=
  match n with
  | O => []
  | S k => post (reading (JInt (Z.of_nat n))) noon :: countdown k
  end.

End Sample.

(** ** Notions used to state further properties of the handlers *)

Module Observed.
Import Py App Props.

(** The result of [float(v)] alone, without the record of the call. *)
Definition float_value (parse : string -> option float) (v : json)
    : outcome float :=
  match v with
  | JFloat f => Returned f
  | JInt n =>
      match PyFloat.of_Z n with
      | Some f => Returned f
      | None => Raised (mk_exn OverflowError "int too large to convert to float")
      end
  | JBool b => Returned (if b then PyFloat.one else PyFloat.zero)
  | JStr s =>
      match parse s with
      | Some f => Returned f
      | None =>
          Raised (mk_exn ValueError
                    ("could not convert string to float: '" ++ s ++ "'"))
      end
  | other =>
      Raised (mk_exn TypeError
                ("float() argument must be a string or a real number, not '"
                   ++ type_name other ++ "'"))
  end.

(** The exception of the first conversion that raises, if any, together
    with the values whose conversion was attempted up to there. *)
Fixpoint first_raised (parse : string -> option float) (vs : list json)
    : option (exn * list json) :=
  match vs with
  | [] => None
  | v :: rest =>
      match float_value parse v with
      | Raised e => Some (e, [v])
      | Returned _ =>
          match first_raised parse rest with
          | Some (e, tried) => Some (e, v :: tried)
          | None => None
          end
      end
  end.

(** The seven labels, from the coldest to the hottest. *)
Definition labels : list string :=
  ["Cold"; "Cool"; "A bit Cool"; "Normal"; "A bit Warm"; "Warm"; "Hot"].

(** The position of a label on that scale. *)
Definition label_level (l : string) : Z :=
  if String.eqb l "Cold" then -3
  else if String.eqb l "Cool" then -2
  else if String.eqb l "A bit Cool" then -1
  else if String.eqb l "Normal" then 0
  else if String.eqb l "A bit Warm" then 1
  else if String.eqb l "Warm" then 2
  else 3.

(** A reading as line 95 builds it, whose label is the classification of
    its pmv and whose pmv is NaN or lies in [[-3.0, 3.0]]. *)
Definition well_formed_reading (d : dict) : Prop :=
  exists time suhu humidity air_flow mrt pmv,
    d = make_reading time suhu humidity air_flow mrt pmv
          (get_thermal_comfort_status pmv) /\
    (is_nan pmv = true \/ within_pmv_range pmv = true).

Definition is_predict (o : op) : bool :=
  match o with Predict _ => true | _ => false end.

(** A payload on which [in] raises: neither dict, list nor str. *)
Definition not_a_container (data : json) : bool :=
  match data with
  | JObj _ | JArr _ | JStr _ => false
  | _ => true
  end.

(** The required names that are not among the string items of a list. *)
Definition names_not_listed (items : list json) : list string :=
  filter (fun k => negb (existsb (json_is_str k) items)) required_fields.

(** A computation whose result and whose calls do not depend on the
    globals it is started with. *)
Definition ignores_globals {A : Type} (c : M A) : Prop :=
  forall w w',
    log w = log w' ->
    fst (c w) = fst (c w') /\ log (snd (c w)) = log (snd (c w')).

End Observed.

(** ** Further deployments, for evaluating the error paths *)

Module Scenarios.
Import Py App.

Definition shape_error : exn :=
  mk_exn ValueError "X has 4 features, but the scaler is expecting 3".

Definition graph_error : exn :=
  mk_exn OtherException "Graph execution error".

(** A scaler whose transform raises. *)
Definition failing_scaler : sk_scaler := fun _ => Raised shape_error.

(** A model whose predict raises. *)
Definition failing_model : keras_model := fun _ => Raised graph_error.

Definition with_failing_scaler : env :=
  mk_env (Some Sample.first_feature_model) (Some failing_scaler) Sample.parse.

Definition with_failing_model : env :=
  mk_env (Some failing_model) (Some Sample.identity_scaler) Sample.parse.

Definition bad_request : exn :=
  mk_exn OtherException "400 Bad Request: Failed to decode JSON object".

Definition undecodable : op := Predict (mk_request (Raised bad_request) Sample.noon).

Definition names_only : json :=
  JArr [JStr "temperature"; JStr "humidity"; JStr "air_flow"; JStr "mrt"].

End Scenarios.

(** * Properties *)

Import Py App Props Observed.

(** ** The order of floating point values *)

Lemma compare_cont_Eq (m n : positive) :
  Pos.compare_cont Eq m n = (Zpos m ?= Zpos n).
Proof. reflexivity. Qed.

Ltac by_rank :=
  unfold lt, le, SFltb, SFleb, SFcompare, lex_le, lex_lt, rank, is_nan;
  repeat match goal with
         | s : bool |- _ => destruct s
         end;
  rewrite ?compare_cont_Eq;
  repeat match goal with
         | |- context [?a ?= ?b] => destruct (Z.compare_spec a b)
         end;
  cbn;
  split; intros;
  repeat match goal with
         | H : _ /\ _ |- _ => destruct H
         end;
  try discriminate; try lia;
  repeat split; try reflexivity; lia.

(** [SFcompare] orders the values that are not NaN by their ranks. *)
Lemma lt_rank (a b : float) :
  lt a b = true <->
  is_nan a = false /\ is_nan b = false /\ lex_lt (rank a) (rank b).
Proof. destruct a, b; by_rank. Qed.

Lemma le_rank (a b : float) :
  le a b = true <->
  is_nan a = false /\ is_nan b = false /\ lex_le (rank a) (rank b).
Proof. destruct a, b; by_rank. Qed.

Section NotNaN.

Variables a b : float.
Hypothesis Ha : is_nan a = false.
Hypothesis Hb : is_nan b = false.

Lemma lt_true_iff : lt a b = true <-> lex_lt (rank a) (rank b).
Proof. rewrite lt_rank. tauto. Qed.

Lemma le_true_iff : le a b = true <-> lex_le (rank a) (rank b).
Proof. rewrite le_rank. tauto. Qed.

Lemma lt_false_iff : lt a b = false <-> ~ lex_lt (rank a) (rank b).
Proof. rewrite <- lt_true_iff. now destruct (lt a b). Qed.

Lemma le_false_iff : le a b = false <-> ~ lex_le (rank a) (rank b).
Proof. rewrite <- le_true_iff. now destruct (le a b). Qed.

End NotNaN.

Lemma is_nan_eq (p : float) : is_nan p = true -> p = nan.
Proof. destruct p; try discriminate. reflexivity. Qed.

(** Turn the comparisons of the hypotheses and of the goal, all between
    values known not to be NaN, into facts about ranks, and close the goal
    by linear arithmetic. *)
Ltac nan_side := first [assumption | reflexivity].

Ltac rank_arith :=
  repeat match goal with
         | H : _ && _ = true |- _ => apply andb_true_iff in H
         | H : _ && _ = false |- _ => apply andb_false_iff in H
         | |- _ && _ = true => apply andb_true_iff
         | |- _ && _ = false => apply andb_false_iff
         end;
  repeat match goal with
         | H : context [lt ?a ?b = true] |- _ =>
             rewrite (lt_true_iff a b) in H by nan_side
         | H : context [lt ?a ?b = false] |- _ =>
             rewrite (lt_false_iff a b) in H by nan_side
         | H : context [le ?a ?b = true] |- _ =>
             rewrite (le_true_iff a b) in H by nan_side
         | H : context [le ?a ?b = false] |- _ =>
             rewrite (le_false_iff a b) in H by nan_side
         | |- context [lt ?a ?b = true] =>
             rewrite (lt_true_iff a b) by nan_side
         | |- context [lt ?a ?b = false] =>
             rewrite (lt_false_iff a b) by nan_side
         | |- context [le ?a ?b = true] =>
             rewrite (le_true_iff a b) by nan_side
         | |- context [le ?a ?b = false] =>
             rewrite (le_false_iff a b) by nan_side
         end;
  unfold lex_lt, lex_le in *;
  repeat match goal with
         | H : context [rank ?p] |- _ =>
             is_var p; destruct (rank p) as [[? ?] ?]
         | |- context [rank ?p] =>
             is_var p; destruct (rank p) as [[? ?] ?]
         end;
  cbn in *; lia.

Lemma lt_not_nan (a b : float) :
  lt a b = true -> is_nan a = false /\ is_nan b = false.
Proof. rewrite lt_rank. tauto. Qed.

Lemma le_not_nan (a b : float) :
  le a b = true -> is_nan a = false /\ is_nan b = false.
Proof. rewrite le_rank. tauto. Qed.

Lemma lt_le (a b : float) : lt a b = true -> le a b = true.
Proof.
  intros H. destruct (lt_not_nan _ _ H). rank_arith.
Qed.

Lemma le_trans (a b c : float) :
  le a b = true -> le b c = true -> le a c = true.
Proof.
  intros H1 H2. destruct (le_not_nan _ _ H1), (le_not_nan _ _ H2). rank_arith.
Qed.

Lemma le_lt_false (a b : float) : le a b = true -> lt b a = false.
Proof.
  intros H. destruct (le_not_nan _ _ H). rank_arith.
Qed.

(** Two values that are not NaN are always comparable. *)
Lemma lt_or_le (a b : float) :
  is_nan a = false -> is_nan b = false -> lt a b = true \/ le b a = true.
Proof. intros Ha Hb. rank_arith. Qed.

(** A NaN fails every comparison. *)
Lemma nan_compares_false (a : float) :
  lt nan a = false /\ lt a nan = false /\ le nan a = false /\ le a nan = false.
Proof. destruct a; repeat split; reflexivity. Qed.

(** ** Floating point values as real numbers *)

Lemma digits2_pos_size (m : positive) : digits2_pos m = Pos.size m.
Proof. induction m; cbn; congruence. Qed.

Lemma digits2_pos_bounds (m : positive) :
  2 ^ (Zpos (digits2_pos m) - 1) <= Zpos m < 2 ^ Zpos (digits2_pos m).
Proof.
  rewrite digits2_pos_size. split.
  - pose proof (Pos.size_le m) as H.
    assert (Zpos (2 ^ Pos.size m) <= Zpos m~0) by exact H.
    rewrite Pos2Z.inj_pow in H0.
    replace (Zpos (Pos.size m)) with (Z.succ (Zpos (Pos.size m) - 1)) in H0 by lia.
    rewrite Z.pow_succ_r in H0 by lia. lia.
  - pose proof (Pos.size_gt m) as H.
    assert (Zpos m < Zpos (2 ^ Pos.size m)) by exact H.
    now rewrite Pos2Z.inj_pow in H0.
Qed.

Lemma canonical_inv (m : positive) (e : Z) :
  bounded 53 1024 m e = true ->
  -1074 <= e /\ Zpos m < 2 ^ 53 /\ (-1074 < e -> 2 ^ 52 <= Zpos m).
Proof.
  unfold bounded, canonical_mantissa, fexp, emin.
  intros H. apply andb_true_iff in H. destruct H as [H _].
  apply Z.eqb_eq in H.
  pose proof (digits2_pos_bounds m) as [Hlo Hhi].
  set (d := Zpos (digits2_pos m)) in *.
  assert (Hd : 0 < d) by (unfold d; lia).
  repeat split.
  - lia.
  - apply Z.lt_le_trans with (1 := Hhi). apply Z.pow_le_mono_r; lia.
  - intros He. assert (d = 53) by lia.
    replace 52 with (d - 1) by lia. exact Hlo.
Qed.

(** A canonical mantissa at a smaller exponent stands below any canonical
    mantissa at a larger one. *)
Lemma lower_exponent_below (m1 m2 : positive) (e1 e2 : Z) :
  bounded 53 1024 m1 e1 = true -> bounded 53 1024 m2 e2 = true ->
  e1 < e2 -> Zpos m1 < Zpos m2 * 2 ^ (e2 - e1).
Proof.
  intros H1 H2 He.
  destruct (canonical_inv _ _ H1) as (L1 & U1 & _).
  destruct (canonical_inv _ _ H2) as (_ & _ & N2).
  specialize (N2 ltac:(lia)).
  assert (2 ^ 1 <= 2 ^ (e2 - e1)) by (apply Z.pow_le_mono_r; lia).
  change (2 ^ 1) with 2 in H.
  change (2 ^ 53) with 9007199254740992 in U1.
  change (2 ^ 52) with 4503599627370496 in N2.
  nia.
Qed.

Lemma two_power_pos (e : Z) : (0 < 2 ^ e)%Q.
Proof. apply Qpower_0_lt. reflexivity. Qed.

(** Comparing [a * 2^e1] with [b * 2^e2] over the rationals is comparing
    integers once both are brought to the smaller exponent. *)
Lemma scaled_lt (a b e1 e2 : Z) :
  e1 <= e2 ->
  ((inject_Z a * 2 ^ e1 < inject_Z b * 2 ^ e2)%Q <-> a < b * 2 ^ (e2 - e1)).
Proof.
  intros He.
  assert (E : (2 ^ e2 == inject_Z (2 ^ (e2 - e1)) * 2 ^ e1)%Q).
  { rewrite Zpower_Qpower by lia. rewrite <- Qpower_plus by discriminate.
    replace (e2 - e1 + e1) with e2 by lia. reflexivity. }
  rewrite E, Qmult_assoc, <- inject_Z_mult.
  rewrite Qmult_lt_r by apply two_power_pos.
  rewrite <- Zlt_Qlt. reflexivity.
Qed.

Lemma scaled_gt (a b e1 e2 : Z) :
  e1 <= e2 ->
  ((inject_Z b * 2 ^ e2 < inject_Z a * 2 ^ e1)%Q <-> b * 2 ^ (e2 - e1) < a).
Proof.
  intros He.
  assert (E : (2 ^ e2 == inject_Z (2 ^ (e2 - e1)) * 2 ^ e1)%Q).
  { rewrite Zpower_Qpower by lia. rewrite <- Qpower_plus by discriminate.
    replace (e2 - e1 + e1) with e2 by lia. reflexivity. }
  rewrite E, Qmult_assoc, <- inject_Z_mult.
  rewrite Qmult_lt_r by apply two_power_pos.
  rewrite <- Zlt_Qlt. reflexivity.
Qed.

(** On canonical mantissas, the order of the pairs (exponent, mantissa)
    is the order of the numbers [m * 2^e]. *)
Lemma magnitude_lt (m1 m2 : positive) (e1 e2 : Z) :
  bounded 53 1024 m1 e1 = true -> bounded 53 1024 m2 e2 = true ->
  ((inject_Z (Zpos m1) * 2 ^ e1 < inject_Z (Zpos m2) * 2 ^ e2)%Q <->
   e1 < e2 \/ (e1 = e2 /\ Zpos m1 < Zpos m2)).
Proof.
  intros H1 H2.
  destruct (Z.lt_trichotomy e1 e2) as [He | [He | He]].
  - rewrite scaled_lt by lia.
    pose proof (lower_exponent_below _ _ _ _ H1 H2 He). intuition lia.
  - subst e2. rewrite scaled_lt by lia.
    rewrite Z.sub_diag, Z.pow_0_r, Z.mul_1_r. intuition lia.
  - rewrite scaled_gt by lia.
    pose proof (lower_exponent_below _ _ _ _ H2 H1 He). intuition lia.
Qed.

Lemma magnitude_pos (m : positive) (e : Z) :
  (0 < inject_Z (Zpos m) * 2 ^ e)%Q.
Proof.
  apply Qmult_lt_0_compat; [| apply two_power_pos].
  change 0%Q with (inject_Z 0). rewrite <- Zlt_Qlt. lia.
Qed.

Lemma to_Q_negative (m : positive) (e : Z) :
  (to_Q (S754_finite true m e) == - (inject_Z (Zpos m) * 2 ^ e))%Q.
Proof.
  cbn [to_Q]. change (Zneg m) with (- Zpos m). rewrite inject_Z_opp. ring.
Qed.

Lemma Qopp_lt_iff (a b : Q) : (- a < - b <-> b < a)%Q.
Proof.
  split; intros H.
  - apply Qopp_lt_compat in H. now rewrite !Qopp_involutive in H.
  - now apply Qopp_lt_compat.
Qed.

(** The comparison of ranks is the comparison of the numbers. *)
Lemma rank_lt_real (x y : float) :
  binary64 x = true -> binary64 y = true ->
  is_finite x = true -> is_finite y = true ->
  (lex_lt (rank x) (rank y) <-> (to_Q x < to_Q y)%Q).
Proof.
  intros Vx Vy Fx Fy.
  destruct x as [sx | sx | | sx mx ex]; try discriminate Fx;
    destruct y as [sy | sy | | sy my ey]; try discriminate Fy.
  - (* zero, zero *)
    cbn. split; [lia | intros H; now apply Qlt_irrefl in H].
  - (* zero, finite *)
    pose proof (magnitude_pos my ey) as Hy.
    destruct sy; rewrite ?to_Q_negative; cbn [rank lex_lt to_Q];
      set (b := (inject_Z (Zpos my) * 2 ^ ey)%Q) in *.
    + split; [lia | intros H; lra].
    + split; [intros _; lra | lia].
  - (* finite, zero *)
    pose proof (magnitude_pos mx ex) as Hx.
    destruct sx; rewrite ?to_Q_negative; cbn [rank lex_lt to_Q];
      set (a := (inject_Z (Zpos mx) * 2 ^ ex)%Q) in *.
    + split; [intros _; lra | lia].
    + split; [lia | intros H; lra].
  - (* finite, finite *)
    pose proof (magnitude_pos mx ex) as Hx.
    pose proof (magnitude_pos my ey) as Hy.
    pose proof (magnitude_lt mx my ex ey Vx Vy) as Hxy.
    pose proof (magnitude_lt my mx ey ex Vy Vx) as Hyx.
    destruct sx, sy; rewrite ?to_Q_negative; cbn [rank lex_lt to_Q];
      set (a := (inject_Z (Zpos mx) * 2 ^ ex)%Q) in *;
      set (b := (inject_Z (Zpos my) * 2 ^ ey)%Q) in *.
    + rewrite Qopp_lt_iff, Hyx. lia.
    + split; [intros _; lra | lia].
    + split; [lia | intros H; lra].
    + rewrite Hxy. lia.
Qed.

Lemma lex_le_not_lt (a b : Z * Z * Z) : lex_le a b <-> ~ lex_lt b a.
Proof.
  destruct a as [[a1 a2] a3], b as [[b1 b2] b3]. unfold lex_le, lex_lt. lia.
Qed.

Lemma rank_le_real (x y : float) :
  binary64 x = true -> binary64 y = true ->
  is_finite x = true -> is_finite y = true ->
  (lex_le (rank x) (rank y) <-> (to_Q x <= to_Q y)%Q).
Proof.
  intros Vx Vy Fx Fy.
  rewrite lex_le_not_lt, (rank_lt_real y x Vy Vx Fy Fx).
  split; [apply Qnot_lt_le | apply Qle_not_lt].
Qed.

Lemma finite_not_nan (x : float) : is_finite x = true -> is_nan x = false.
Proof. now destruct x. Qed.

(** On finite binary64 values, Python's [<] and [<=] are the order of the
    real numbers the values stand for. *)
Theorem lt_real (x y : float) :
  binary64 x = true -> binary64 y = true ->
  is_finite x = true -> is_finite y = true ->
  (lt x y = true <-> (to_Q x < to_Q y)%Q).
Proof.
  intros Vx Vy Fx Fy.
  rewrite lt_true_iff by now apply finite_not_nan.
  now apply rank_lt_real.
Qed.

Theorem le_real (x y : float) :
  binary64 x = true -> binary64 y = true ->
  is_finite x = true -> is_finite y = true ->
  (le x y = true <-> (to_Q x <= to_Q y)%Q).
Proof.
  intros Vx Vy Fx Fy.
  rewrite le_true_iff by now apply finite_not_nan.
  now apply rank_le_real.
Qed.

(** The literals of the source are binary64 values and stand for the
    integers they are written as. *)
Lemma literals_real :
  (to_Q one == 1 /\ to_Q two == 2 /\ to_Q three == 3 /\
   to_Q neg_one == -1 /\ to_Q neg_two == -2 /\ to_Q neg_three == -3)%Q.
Proof. repeat split. Qed.

Lemma literals_binary64 :
  of_Z 1 = Some one /\ of_Z 2 = Some two /\ of_Z 3 = Some three /\
  of_Z (-1) = Some neg_one /\ of_Z (-2) = Some neg_two /\
  of_Z (-3) = Some neg_three.
Proof. repeat split. Qed.

(** ** The clamping step *)

Lemma np_clip_nan (lo hi : float) : np_clip nan lo hi = nan.
Proof. reflexivity. Qed.

Lemma np_clip_is_nan (x : float) :
  is_nan (np_clip x neg_three three) = is_nan x.
Proof.
  unfold np_clip, np_max, np_min.
  destruct (is_nan x) eqn:Hx.
  - rewrite Hx. exact Hx.
  - destruct (lt neg_three x).
    + rewrite Hx. destruct (lt x three); [exact Hx | reflexivity].
    + reflexivity.
Qed.

Lemma np_clip_within (x : float) :
  is_nan x = false -> within_pmv_range (np_clip x neg_three three) = true.
Proof.
  intros Hx. unfold np_clip, np_max, np_min, within_pmv_range. rewrite Hx.
  destruct (lt neg_three x) eqn:L.
  - rewrite Hx. destruct (lt x three) eqn:U.
    + apply lt_le in L, U. now rewrite L, U.
    + reflexivity.
  - reflexivity.
Qed.

(** Inside the interval the clamp changes nothing. *)
Lemma np_clip_inside (x : float) :
  lt neg_three x = true -> lt x three = true -> np_clip x neg_three three = x.
Proof.
  intros L U. unfold np_clip, np_max, np_min.
  destruct (lt_not_nan _ _ L) as [_ Hx].
  now rewrite Hx, L, Hx, U.
Qed.

(** ** The comfort classifier *)

(** A row whose condition holds decides the label, wherever the row stands
    in the table: the six conditions exclude one another. *)
Lemma row_decides (p : float) (cond : float -> bool) (label : string) :
  In (cond, label) comfort_rows -> cond p = true ->
  get_thermal_comfort_status p = label.
Proof.
  unfold comfort_rows. cbn [In]. intros H C.
  destruct (is_nan p) eqn:Hp.
  { apply is_nan_eq in Hp. subst p.
    repeat (destruct H as [H | H];
            [injection H as <- <-; discriminate C |]).
    contradiction. }
  repeat (destruct H as [H | H];
          [injection H as <- <-; cbv beta in C |]);
    try contradiction;
    unfold get_thermal_comfort_status;
    repeat match goal with
           | |- context [if ?c then _ else _] =>
               let E := fresh "E" in
               destruct c eqn:E;
               [ first [reflexivity | exfalso; rank_arith]
               | first [congruence | clear E] ]
           end.
Qed.

Lemma no_row_is_hot (p : float) :
  no_row_matches p = true -> get_thermal_comfort_status p = "Hot".
Proof.
  unfold no_row_matches, comfort_rows, get_thermal_comfort_status.
  cbn [forallb fst]. intros H.
  repeat match goal with
         | |- context [if ?c then _ else _] =>
             destruct c; cbn [negb andb] in H; try discriminate H
         end.
  reflexivity.
Qed.

(** Among the values that are not NaN, the catch-all is reached exactly
    from 3.0 upwards. *)
Lemma no_row_above_three (p : float) :
  is_nan p = false -> (no_row_matches p = true <-> le three p = true).
Proof.
  intros Hp. unfold no_row_matches, comfort_rows. cbn [forallb fst].
  rewrite andb_true_r. rewrite !andb_true_iff, !negb_true_iff.
  split; intros H.
  - destruct H as (H1 & H2 & H3 & H4 & H5 & H6). rank_arith.
  - repeat split; rank_arith.
Qed.

Ltac use_row :=
  eapply row_decides;
  [ unfold comfort_rows; cbn [In];
    repeat first [left; reflexivity | right]
  | cbv beta ].

Ltac by_row :=
  let p := fresh "p" in
  let H := fresh "H" in
  intros p H; use_row; exact H.

(** The classifier read on real numbers: for a finite binary64 input that
    stands for the real number q, the label is decided by the position of q
    among -3, -2, -1, 1, 2 and 3. *)
Lemma classifier_on_reals (p : float) :
  binary64 p = true -> is_finite p = true ->
  ((-1 < to_Q p < 1)%Q -> get_thermal_comfort_status p = "Normal") /\
  ((-2 < to_Q p <= -1)%Q -> get_thermal_comfort_status p = "A bit Cool") /\
  ((-3 < to_Q p <= -2)%Q -> get_thermal_comfort_status p = "Cool") /\
  ((to_Q p <= -3)%Q -> get_thermal_comfort_status p = "Cold") /\
  ((1 <= to_Q p < 2)%Q -> get_thermal_comfort_status p = "A bit Warm") /\
  ((2 <= to_Q p < 3)%Q -> get_thermal_comfort_status p = "Warm") /\
  ((3 <= to_Q p)%Q -> get_thermal_comfort_status p = "Hot").
Proof.
  intros Vp Fp.
  destruct literals_real as (Q1 & Q2 & Q3 & N1 & N2 & N3).
  repeat split; intros H.
  - use_row. apply andb_true_iff. rewrite !lt_real by easy.
    rewrite N1, Q1. exact H.
  - use_row. apply andb_true_iff. rewrite lt_real, le_real by easy.
    rewrite N1, N2. exact H.
  - use_row. apply andb_true_iff. rewrite lt_real, le_real by easy.
    rewrite N2, N3. exact H.
  - use_row. rewrite le_real by easy. rewrite N3. exact H.
  - use_row. apply andb_true_iff. rewrite lt_real, le_real by easy.
    rewrite Q1, Q2. exact H.
  - use_row. apply andb_true_iff. rewrite lt_real, le_real by easy.
    rewrite Q2, Q3. exact H.
  - apply no_row_is_hot. apply no_row_above_three; [now apply finite_not_nan |].
    rewrite le_real by easy. rewrite Q3. exact H.
Qed.

(** The two infinities fall in the outermost branches. *)
Lemma classifier_at_infinities :
  get_thermal_comfort_status neg_inf = "Cold" /\
  get_thermal_comfort_status inf = "Hot".
Proof. split; reflexivity. Qed.

(** C1.  The classifier is a total function that returns the label of the
    seven-branch table read in order.  It equals the first-match reading of
    the table; each of the six range conditions, as Python evaluates it on
    floats, yields its label, and an input that satisfies none of them is
    "Hot"; on every finite binary64 input, read as the real number q it
    stands for, the label is "Normal" for -1 < q < 1, "A bit Cool" for
    -2 < q <= -1, "Cool" for -3 < q <= -2, "Cold" for q <= -3, "A bit Warm"
    for 1 <= q < 2, "Warm" for 2 <= q < 3 and "Hot" for 3 <= q; the two
    boundary values -1.0 and 1.0 are "A bit Cool" and "A bit Warm". *)
Theorem classifier_follows_table :
  (forall p, get_thermal_comfort_status p = classify_table p) /\
  (forall p, lt neg_one p && lt p one = true ->
             get_thermal_comfort_status p = "Normal") /\
  (forall p, lt neg_two p && le p neg_one = true ->
             get_thermal_comfort_status p = "A bit Cool") /\
  (forall p, lt neg_three p && le p neg_two = true ->
             get_thermal_comfort_status p = "Cool") /\
  (forall p, le p neg_three = true ->
             get_thermal_comfort_status p = "Cold") /\
  (forall p, le one p && lt p two = true ->
             get_thermal_comfort_status p = "A bit Warm") /\
  (forall p, le two p && lt p three = true ->
             get_thermal_comfort_status p = "Warm") /\
  (forall p, no_row_matches p = true ->
             get_thermal_comfort_status p = "Hot") /\
  (forall p,
     binary64 p = true -> is_finite p = true ->
     ((-1 < to_Q p < 1)%Q -> get_thermal_comfort_status p = "Normal") /\
     ((-2 < to_Q p <= -1)%Q -> get_thermal_comfort_status p = "A bit Cool") /\
     ((-3 < to_Q p <= -2)%Q -> get_thermal_comfort_status p = "Cool") /\
     ((to_Q p <= -3)%Q -> get_thermal_comfort_status p = "Cold") /\
     ((1 <= to_Q p < 2)%Q -> get_thermal_comfort_status p = "A bit Warm") /\
     ((2 <= to_Q p < 3)%Q -> get_thermal_comfort_status p = "Warm") /\
     ((3 <= to_Q p)%Q -> get_thermal_comfort_status p = "Hot")) /\
  get_thermal_comfort_status neg_one = "A bit Cool" /\
  get_thermal_comfort_status one = "A bit Warm".
Proof.
  split; [reflexivity |].
  do 6 (split; [by_row |]).
  split; [exact no_row_is_hot |].
  split; [exact classifier_on_reals |].
  split; reflexivity.
Qed.

(** C10.  The last branch is a catch-all: an input that satisfies none of
    the six range conditions is "Hot".  NaN is such an input, since it
    fails every comparison, so the classifier answers "Hot" for it; being a
    total function, it never raises. *)
Theorem classifier_catch_all :
  (forall p, no_row_matches p = true ->
             get_thermal_comfort_status p = "Hot") /\
  (forall a, lt nan a = false /\ lt a nan = false /\
             le nan a = false /\ le a nan = false) /\
  no_row_matches nan = true /\
  get_thermal_comfort_status nan = "Hot".
Proof.
  split; [exact no_row_is_hot |].
  split; [exact nan_compares_false |].
  split; reflexivity.
Qed.

(** The catch-all at NaN. *)
Lemma classifier_catch_all_nan :
  no_row_matches nan = true /\ get_thermal_comfort_status nan = "Hot".
Proof.
  split; [reflexivity |].
  apply (proj1 classifier_catch_all nan). reflexivity.
Defined.

(** ** Handlers: what they leave alone *)

Section Frame.

Context {A B : Type}.

Lemma keeps_ret (a : A) : keeps_globals (ret a).
Proof. intros w. reflexivity. Qed.

Lemma keeps_raise (c : exn_class) (msg : string) :
  keeps_globals (@raise A c msg).
Proof. intros w. reflexivity. Qed.

Lemma keeps_lift (o : outcome A) : keeps_globals (lift o).
Proof. intros w. reflexivity. Qed.

Lemma keeps_bind (c : M A) (k : A -> M B) :
  keeps_globals c -> (forall a, keeps_globals (k a)) ->
  keeps_globals (bind c k).
Proof.
  intros Hc Hk w. unfold bind. specialize (Hc w).
  destruct (c w) as [[a | e] w']; cbn in *.
  - now rewrite Hk.
  - exact Hc.
Qed.

Lemma keeps_try_except (body : M A) (catches : exn_class -> bool)
    (handler : exn -> M A) :
  keeps_globals body -> (forall e, keeps_globals (handler e)) ->
  keeps_globals (try_except body catches handler).
Proof.
  intros Hb Hh w. unfold try_except. specialize (Hb w).
  destruct (body w) as [[a | e] w']; cbn in *.
  - exact Hb.
  - destruct (catches (exn_cls e)); cbn.
    + now rewrite Hh.
    + exact Hb.
Qed.

End Frame.

Lemma keeps_emit (ev : event) : keeps_globals (emit ev).
Proof. intros w. reflexivity. Qed.

Lemma keeps_get_globals : keeps_globals get_globals.
Proof. intros w. reflexivity. Qed.

Create HintDb keeps.
#[local] Hint Resolve keeps_ret keeps_raise keeps_lift keeps_emit
  keeps_get_globals : keeps.

(** Peel a computation built from [bind], [try_except] and case analysis
    down to its primitive steps. *)
Ltac keeps :=
  repeat first
    [ progress auto with keeps
    | apply keeps_bind; [| intros ?]
    | apply keeps_try_except; [| intros ?]
    | match goal with
      | |- keeps_globals (match ?x with _ => _ end) => destruct x
      | |- keeps_globals (if ?x then _ else _) => destruct x
      end ].

Lemma keeps_py_contains (data : json) (key : string) :
  keeps_globals (py_contains data key).
Proof. unfold py_contains. keeps. Qed.

Lemma keeps_py_getitem (data : json) (key : string) :
  keeps_globals (py_getitem data key).
Proof. unfold py_getitem. keeps. Qed.

Lemma keeps_py_float (parse : string -> option float) (v : json) :
  keeps_globals (py_float parse v).
Proof. unfold py_float. keeps. Qed.

Lemma keeps_item0 {A : Type} (a : list A) : keeps_globals (item0 a).
Proof. unfold item0. keeps. Qed.

#[local] Hint Resolve keeps_py_contains keeps_py_getitem keeps_py_float
  keeps_item0 : keeps.

Lemma keeps_keys_not_in (data : json) (xs : list string) :
  keeps_globals (keys_not_in data xs).
Proof. induction xs as [| x xs IH]; cbn [keys_not_in]; keeps. Qed.

Lemma keeps_get_json (r : request) : keeps_globals (get_json r).
Proof. unfold get_json. keeps. Qed.

Lemma keeps_coerce_fields (E : env) (data : json) :
  keeps_globals (coerce_fields E data).
Proof. unfold coerce_fields. keeps. Qed.

Lemma keeps_infer (mdl : keras_model) (scl : sk_scaler)
    (x : list (list float)) :
  keeps_globals (infer mdl scl x).
Proof. unfold infer, scaler_transform, model_predict. keeps. Qed.

#[local] Hint Resolve keeps_keys_not_in keeps_get_json keeps_coerce_fields
  keeps_infer : keeps.

(** The two read-only endpoints and the root. *)
Lemma keeps_home : keeps_globals home.
Proof. unfold home. keeps. Qed.

Lemma keeps_get_sensor_data : keeps_globals get_sensor_data.
Proof. unfold get_sensor_data. keeps. Qed.

Lemma keeps_get_sensor_data_history : keeps_globals get_sensor_data_history.
Proof. unfold get_sensor_data_history. keeps. Qed.

(** ** Handlers: what a prediction does *)

(** The response of a successful prediction. *)
Lemma clamp_and_store_run (r : request) (suhu humidity air_flow mrt : float)
    (scaled : list (list float)) (raw : float) (w : world) :
  let pmv := np_clip raw neg_three three in
  let tc := get_thermal_comfort_status pmv in
  clamp_and_store r suhu humidity air_flow mrt scaled raw w =
    ( Returned (mk_response
                  (BObj [("pmv", VFloat pmv); ("thermal_comfort", VStr tc)])
                  200),
      mk_world
        (store_reading
           (make_reading (req_now r) suhu humidity air_flow mrt pmv tc)
           (glob w))
        (log w ++ [EvNow;
                   EvPrintPrediction [[suhu; humidity; air_flow; mrt]]
                     scaled pmv tc]) ).
Proof.
  intros pmv tc.
  unfold clamp_and_store, now_strftime, set_latest, history_append_latest,
    history_trim, history_pop0, store_reading, bind, emit, ret, get_globals,
    put_globals.
  cbn -[np_clip get_thermal_comfort_status Nat.ltb history_limit].
  fold pmv. fold tc.
  destruct (Nat.ltb history_limit _) eqn:L;
    cbn -[np_clip get_thermal_comfort_status Nat.ltb history_limit].
  - destruct (sensor_data_history (glob w) ++ _)%list eqn:Hh.
    + destruct (sensor_data_history (glob w)); discriminate Hh.
    + cbn. now rewrite <- app_assoc.
  - now rewrite <- app_assoc.
Qed.

Lemma bind_returned {A B : Type} (c : M A) (k : A -> M B) (w w' : world)
    (b : B) :
  bind c k w = (Returned b, w') ->
  exists a w1, c w = (Returned a, w1) /\ k a w1 = (Returned b, w').
Proof.
  unfold bind. destruct (c w) as [[a | e] w1]; [eauto | discriminate].
Qed.

(** The coercion step returns early only with its own 400 response. *)
Lemma coerce_fields_early (E : env) (data : json) (w w' : world)
    (rsp : response) :
  coerce_fields E data w = (Returned (inl rsp), w') ->
  rsp = jsonify_error "Semua parameter harus berupa angka!" 400.
Proof.
  unfold coerce_fields, try_except.
  match goal with
  | |- (match ?body w with _ => _ end) = _ -> _ =>
      destruct (body w) as [[a | e] w1] eqn:Hb
  end.
  - intros H. injection H as -> ->.
    repeat match goal with
           | H : bind _ _ _ = (Returned _, _) |- _ =>
               apply bind_returned in H; destruct H as (? & ? & _ & H)
           end.
    discriminate Hb.
  - destruct (is_ValueError (exn_cls e)); cbn; intros H; now inversion H.
Qed.

Ltac failed_end :=
  cbn;
  repeat match goal with
         | H : glob _ = _ |- _ => rewrite H
         end;
  apply predict_failed; cbn; [auto | eexists; reflexivity].

Lemma predict_body_end (E : env) (mdl : keras_model) (scl : sk_scaler)
    (r : request) (w : world) :
  let '(a, w') := predict_body E mdl scl r w in
  predict_end r (glob w) a (glob w').
Proof.
  unfold predict_body, try_except, bind.
  pose proof (keeps_get_json r w) as K1.
  destruct (get_json r w) as [[data | e1] w1]; cbn [snd] in K1;
    [| failed_end].
  pose proof (keeps_keys_not_in data required_fields w1) as K2.
  destruct (keys_not_in data required_fields w1) as [[missing | e2] w2];
    cbn [snd] in K2; [| failed_end].
  destruct missing as [| k ks]; [| failed_end].
  pose proof (keeps_coerce_fields E data w2) as K3.
  destruct (coerce_fields E data w2) as [[parsed | e3] w3] eqn:Hc;
    cbn [snd] in K3; [| failed_end].
  destruct parsed as [early | [[[suhu humidity] air_flow] mrt]].
  { apply coerce_fields_early in Hc. subst early. failed_end. }
  pose proof (keeps_infer mdl scl [[suhu; humidity; air_flow; mrt]] w3) as K4.
  destruct (infer mdl scl [[suhu; humidity; air_flow; mrt]] w3)
    as [[[scaled raw] | e4] w4]; cbn [snd] in K4; [| failed_end].
  rewrite clamp_and_store_run. cbn [glob].
  rewrite K4, K3, K2, K1. apply predict_stored.
Qed.

Lemma serve_predict_end (E : env) (g : globals) (r : request) :
  predict_end r g (answer (serve E g (Predict r)))
    (after (serve E g (Predict r))).
Proof.
  unfold serve, handler, predict.
  destruct (model E) as [mdl |], (scaler E) as [scl |];
    try (cbn; apply predict_failed; cbn; [auto | eexists; reflexivity]).
  pose proof (predict_body_end E mdl scl r (mk_world g [])) as H.
  destruct (predict_body E mdl scl r (mk_world g [])) as [a w']. exact H.
Qed.

(** The GET endpoints answer 200, touch nothing and call nobody. *)
Lemma serve_home (E : env) (g : globals) :
  serve E g Home =
    mk_served
      (Returned (mk_response
                   (BObj [("message", VStr "PMV Prediction API is running!")])
                   200))
      g [].
Proof. destruct g. reflexivity. Qed.

Lemma serve_get_sensor_data (E : env) (g : globals) :
  serve E g GetSensorData =
    mk_served (Returned (mk_response (BObj (latest_sensor_data g)) 200)) g [].
Proof. destruct g. reflexivity. Qed.

Lemma serve_get_sensor_data_history (E : env) (g : globals) :
  serve E g GetSensorDataHistory =
    mk_served (Returned (mk_response (BArr (sensor_data_history g)) 200)) g [].
Proof. destruct g. reflexivity. Qed.

(** One request either leaves the globals alone and stores nothing, or
    stores exactly one reading. *)
Lemma serve_effect (E : env) (g : globals) (o : op) :
  (after (serve E g o) = g /\ stored_by E g o = None /\
   (forall r, o = Predict r -> succeeded (serve E g o) = false)) \/
  (exists d, after (serve E g o) = store_reading d g /\
             stored_by E g o = Some d /\ succeeded (serve E g o) = true).
Proof.
  destruct o as [| r | |].
  - left. rewrite serve_home. repeat split. discriminate.
  - pose proof (serve_predict_end E g r) as H.
    unfold stored_by, succeeded.
    destruct H as [rsp Hs _ | suhu humidity air_flow mrt raw pmv tc].
    + left. repeat split.
      * destruct Hs as [-> | ->]; reflexivity.
      * intros _ _. destruct Hs as [-> | ->]; reflexivity.
    + right. eexists. repeat split.
  - left. rewrite serve_get_sensor_data. repeat split. discriminate.
  - left. rewrite serve_get_sensor_data_history. repeat split. discriminate.
Qed.

(** ** The bounded history *)

Section KeepLast.

Context {A : Type}.
Implicit Types l r : list A.

Lemma keep_last_short (n : nat) l :
  (List.length l <= n)%nat -> keep_last n l = l.
Proof.
  intros H. unfold keep_last.
  replace (List.length l - n)%nat with 0%nat by lia. reflexivity.
Qed.

Lemma length_keep_last (n : nat) l :
  List.length (keep_last n l) = Nat.min (List.length l) n.
Proof. unfold keep_last. rewrite length_skipn. lia. Qed.

Lemma keep_last_app (n : nat) l r :
  keep_last n (keep_last n l ++ r) = keep_last n (l ++ r).
Proof.
  unfold keep_last.
  rewrite !length_app, length_skipn, !skipn_app, skipn_skipn, length_skipn.
  f_equal; f_equal; lia.
Qed.

Lemma tl_skipn l : tl l = skipn 1 l.
Proof. destruct l; reflexivity. Qed.

Lemma keep_last_snoc (n : nat) l (x : A) :
  exists older, keep_last (S n) (l ++ [x]) = (older ++ [x])%list.
Proof.
  unfold keep_last. rewrite length_app, skipn_app. cbn [List.length].
  replace (List.length l + 1 - S n - List.length l)%nat with 0%nat by lia.
  eexists. reflexivity.
Qed.

End KeepLast.

Lemma last_cons_default {A : Type} (x : A) (l : list A) (a b : A) :
  last (x :: l) a = last (x :: l) b.
Proof.
  revert x. induction l as [| y l IH]; intros x; [reflexivity |].
  change (last (y :: l) a = last (y :: l) b). apply IH.
Qed.

Lemma store_reading_history (d : dict) (g : globals) :
  (List.length (sensor_data_history g) <= history_limit)%nat ->
  sensor_data_history (store_reading d g) =
    keep_last history_limit (sensor_data_history g ++ [d]).
Proof.
  intros H. unfold store_reading, keep_last. cbn [sensor_data_history].
  rewrite length_app. cbn [List.length].
  destruct (Nat.ltb_spec history_limit (List.length (sensor_data_history g) + 1)).
  - rewrite tl_skipn. f_equal. lia.
  - replace (_ - _)%nat with 0%nat by lia. reflexivity.
Qed.

Lemma store_reading_latest (d : dict) (g : globals) :
  latest_sensor_data (store_reading d g) = d.
Proof. reflexivity. Qed.

Lemma run_cons (E : env) (g : globals) (o : op) (ops : list op) :
  run E g (o :: ops) = run E (after (serve E g o)) ops.
Proof. reflexivity. Qed.

(** The history after a run is the last hundred of what was there before
    followed by the readings stored during the run. *)
Lemma history_of_run (E : env) (ops : list op) (g : globals) :
  (List.length (sensor_data_history g) <= history_limit)%nat ->
  sensor_data_history (run E g ops) =
    keep_last history_limit (sensor_data_history g ++ stored_readings E g ops).
Proof.
  revert g. induction ops as [| o ops IH]; intros g Hg.
  - cbn. rewrite app_nil_r. symmetry. now apply keep_last_short.
  - rewrite run_cons. cbn [stored_readings].
    destruct (serve_effect E g o) as [(Ha & Hs & _) | (d & Ha & Hs & _)];
      rewrite Hs, Ha.
    + now apply IH.
    + rewrite IH.
      * rewrite store_reading_history by exact Hg.
        rewrite keep_last_app, <- app_assoc. reflexivity.
      * rewrite store_reading_history by exact Hg.
        rewrite length_keep_last. lia.
Qed.

Lemma latest_of_run (E : env) (ops : list op) (g : globals) :
  latest_sensor_data (run E g ops) =
    last (stored_readings E g ops) (latest_sensor_data g).
Proof.
  revert g. induction ops as [| o ops IH]; intros g.
  - reflexivity.
  - rewrite run_cons. cbn [stored_readings].
    destruct (serve_effect E g o) as [(Ha & Hs & _) | (d & Ha & Hs & _)];
      rewrite Hs, Ha.
    + apply IH.
    + rewrite IH, store_reading_latest.
      destruct (stored_readings E (store_reading d g) ops) as [| d' ds];
        [reflexivity |].
      change (last (d' :: ds) d = last (d' :: ds) (latest_sensor_data g)).
      apply last_cons_default.
Qed.

(** ** The clamped value *)

(** The interval test read on real numbers. *)
Lemma within_pmv_range_real (x : float) :
  binary64 x = true -> is_finite x = true ->
  (within_pmv_range x = true <-> (-3 <= to_Q x <= 3)%Q).
Proof.
  intros Vx Fx. destruct literals_real as (_ & _ & Q3 & _ & _ & N3).
  unfold within_pmv_range. rewrite andb_true_iff, !le_real by easy.
  rewrite N3, Q3. reflexivity.
Qed.

Lemma within_pmv_range_finite (x : float) :
  within_pmv_range x = true -> is_finite x = true.
Proof. destruct x as [s | [] | | s m e]; try reflexivity; discriminate. Qed.

Lemma np_clip_binary64 (x : float) :
  binary64 x = true -> binary64 (np_clip x neg_three three) = true.
Proof.
  intros Vx. unfold np_clip, np_max, np_min.
  repeat match goal with
         | |- context [if ?c then _ else _] => destruct c
         end; first [exact Vx | reflexivity].
Qed.

(** The clamp on a raw model output that is not NaN, whatever its
    magnitude (infinities included): the request is answered with status
    200, the pmv returned in the response and the pmv stored in the latest
    reading are the clamped value, and that value lies in the closed
    interval from -3.0 to 3.0: it passes Python's test
    [-3.0 <= pmv <= 3.0] and, the raw output being a binary64 value, it is
    a finite binary64 value that stands for a real number between -3 and
    3. *)
Theorem pmv_clamped_unless_nan (r : request)
    (suhu humidity air_flow mrt : float) (scaled : list (list float))
    (raw : float) (w : world) :
  is_nan raw = false ->
  let pmv := np_clip raw neg_three three in
  let done := clamp_and_store r suhu humidity air_flow mrt scaled raw w in
  fst done =
    Returned
      (mk_response
         (BObj [("pmv", VFloat pmv);
                ("thermal_comfort", VStr (get_thermal_comfort_status pmv))])
         200) /\
  field "pmv" (latest_sensor_data (glob (snd done))) = Some (VFloat pmv) /\
  within_pmv_range pmv = true /\
  (binary64 raw = true ->
   binary64 pmv = true /\ is_finite pmv = true /\ (-3 <= to_Q pmv <= 3)%Q).
Proof.
  intros Hraw pmv done. unfold done. rewrite clamp_and_store_run.
  cbn [fst snd glob]. rewrite store_reading_latest.
  pose proof (np_clip_within raw Hraw) as Hw. fold pmv in Hw.
  repeat split; try exact Hw.
  - now apply np_clip_binary64.
  - now apply within_pmv_range_finite.
  - apply within_pmv_range_real;
      [now apply np_clip_binary64 | now apply within_pmv_range_finite |
       exact Hw].
  - apply within_pmv_range_real;
      [now apply np_clip_binary64 | now apply within_pmv_range_finite |
       exact Hw].
Qed.

(** The clamp at an infinite raw output. *)
Lemma pmv_clamped_at_infinity :
  is_nan inf = false /\
  fst (clamp_and_store (mk_request (Returned JNull) Sample.noon)
         zero zero zero zero [] inf (mk_world initial_globals [])) =
    Returned
      (mk_response
         (BObj [("pmv", VFloat three); ("thermal_comfort", VStr "Hot")])
         200).
Proof.
  split; [reflexivity |].
  exact (proj1 (pmv_clamped_unless_nan
                  (mk_request (Returned JNull) Sample.noon)
                  zero zero zero zero [] inf (mk_world initial_globals [])
                  eq_refl)).
Defined.

(** C2 does not hold of the code.  Line 88 is meant to limit the pmv to
    the interval from -3 to 3 (the comment of line 87 says so), but
    [np.clip] returns NaN for NaN.  A request whose temperature is the
    string "nan" is coerced to NaN, the model returns NaN, the clamp leaves
    it, and the service answers 200 with a pmv that is not in the interval
    and stores it as the latest reading. *)
Lemma pmv_nan_escapes_clamp :
  answer (serve Sample.loaded initial_globals
            (Sample.post (Sample.reading (JStr "nan")) Sample.noon)) =
    Returned (mk_response
                (BObj [("pmv", VFloat nan); ("thermal_comfort", VStr "Hot")])
                200) /\
  within_pmv_range nan = false /\
  pmv_in_range [("pmv", VFloat nan); ("thermal_comfort", VStr "Hot")] = false /\
  pmv_in_range
    (latest_sensor_data
       (after (serve Sample.loaded initial_globals
                 (Sample.post (Sample.reading (JStr "nan")) Sample.noon)))) =
    false.
Proof. repeat split; vm_compute; reflexivity. Qed.

(** ** The history invariants *)

Lemma history_step_bounded (E : env) (g : globals) (o : op) :
  (List.length (sensor_data_history g) <= history_limit)%nat ->
  (List.length (sensor_data_history (after (serve E g o))) <= history_limit)%nat.
Proof.
  intros Hg.
  destruct (serve_effect E g o) as [(Ha & _) | (d & Ha & _)]; rewrite Ha.
  - exact Hg.
  - rewrite store_reading_history by exact Hg. rewrite length_keep_last. lia.
Qed.

Lemma states_bounded (E : env) (ops : list op) (g : globals) :
  (List.length (sensor_data_history g) <= history_limit)%nat ->
  Forall (fun g' => (List.length (sensor_data_history g') <= history_limit)%nat)
    (states E g ops).
Proof.
  revert g. induction ops as [| o ops IH]; intros g Hg; cbn [states].
  - constructor.
  - constructor.
    + now apply history_step_bounded.
    + apply IH. now apply history_step_bounded.
Qed.

(** C3.  From the start of the process and after each request of any
    sequence of requests (predictions that succeed or fail, and GETs), the
    history holds at most 100 readings. *)
Theorem history_at_most_100 (E : env) (ops : list op) :
  Forall (fun g => (List.length (sensor_data_history g) <= 100)%nat)
    (initial_globals :: states E initial_globals ops).
Proof.
  constructor.
  - cbn. lia.
  - apply (states_bounded E ops initial_globals). cbn. unfold history_limit. lia.
Qed.

Lemma latest_step (E : env) (g : globals) (o : op) :
  (List.length (sensor_data_history g) <= history_limit)%nat ->
  latest_closes_history g ->
  latest_closes_history (after (serve E g o)).
Proof.
  intros Hg Hl.
  destruct (serve_effect E g o) as [(Ha & _) | (d & Ha & _)]; rewrite Ha.
  - exact Hl.
  - intros _. rewrite store_reading_history by exact Hg.
    rewrite store_reading_latest. apply (keep_last_snoc 99).
Qed.

Lemma states_latest (E : env) (ops : list op) (g : globals) :
  (List.length (sensor_data_history g) <= history_limit)%nat ->
  latest_closes_history g ->
  Forall latest_closes_history (states E g ops).
Proof.
  revert g. induction ops as [| o ops IH]; intros g Hg Hl; cbn [states].
  - constructor.
  - constructor.
    + now apply latest_step.
    + apply IH; [now apply history_step_bounded | now apply latest_step].
Qed.

(** C4.  After each request of any sequence of requests, whenever the
    history is not empty its last element is the latest reading. *)
Theorem latest_is_last_of_history (E : env) (ops : list op) :
  Forall
    (fun g =>
       sensor_data_history g <> [] ->
       exists older,
         sensor_data_history g = (older ++ [latest_sensor_data g])%list)
    (states E initial_globals ops).
Proof.
  apply (states_latest E ops initial_globals).
  - cbn. unfold history_limit. lia.
  - intros H. now elim H.
Qed.

(** What [stored_readings] collects: the reading built at lines 95-103 from
    the request's clock, its four coerced inputs, the clamped output and
    its label, for each request answered with status 200. *)
Lemma stored_by_reading (E : env) (g : globals) (o : op) (d : dict) :
  stored_by E g o = Some d ->
  exists r suhu humidity air_flow mrt raw,
    o = Predict r /\
    d = make_reading (req_now r) suhu humidity air_flow mrt
          (np_clip raw neg_three three)
          (get_thermal_comfort_status (np_clip raw neg_three three)) /\
    answer (serve E g o) =
      Returned
        (mk_response
           (BObj [("pmv", VFloat (np_clip raw neg_three three));
                  ("thermal_comfort",
                   VStr (get_thermal_comfort_status
                           (np_clip raw neg_three three)))])
           200).
Proof.
  destruct o as [| r | |]; try discriminate.
  unfold stored_by. pose proof (serve_predict_end E g r) as H.
  destruct H as [rsp Hs _ | suhu humidity air_flow mrt raw pmv tc].
  - destruct Hs as [-> | ->]; discriminate.
  - cbn [resp_status Z.eqb Pos.eqb]. intros [= <-].
    exists r, suhu, humidity, air_flow, mrt, raw. repeat split.
Qed.

(** C5.  After any sequence of requests served from the empty history, with
    N of them answered 200: when N is at most 100 the history is the N
    stored readings in the order of the requests, and its last element is
    the latest reading; when N exceeds 100 the history has exactly 100
    entries, the 100 most recent stored readings, oldest first. *)
Theorem history_is_last_hundred (E : env) (ops : list op) :
  let g := run E initial_globals ops in
  let rs := stored_readings E initial_globals ops in
  let n := List.length rs in
  ((n <= 100)%nat ->
     List.length (sensor_data_history g) = n /\
     sensor_data_history g = rs /\
     (n <> 0%nat ->
      exists older,
        sensor_data_history g = (older ++ [latest_sensor_data g])%list)) /\
  ((100 < n)%nat ->
     List.length (sensor_data_history g) = 100%nat /\
     sensor_data_history g = skipn (n - 100) rs).
Proof.
  intros g rs n.
  assert (Hh : sensor_data_history g = keep_last 100 rs).
  { unfold g, rs. rewrite history_of_run; [reflexivity |].
    cbn. unfold history_limit. lia. }
  assert (Hl : latest_sensor_data g = last rs initial_latest).
  { unfold g, rs. now rewrite latest_of_run. }
  split; intros Hn.
  - rewrite Hh, keep_last_short by exact Hn. repeat split.
    intros Hz. rewrite Hl.
    destruct (exists_last (l := rs)) as (older & d & ->).
    { intros ->. now apply Hz. }
    exists older. now rewrite last_last.
  - rewrite Hh. split.
    + rewrite length_keep_last. fold n. lia.
    + reflexivity.
Qed.

(** The history after 101 successful predictions. *)
Lemma history_after_101 :
  List.length
    (sensor_data_history
       (run Sample.loaded initial_globals (Sample.countdown 101))) = 100%nat /\
  sensor_data_history
    (run Sample.loaded initial_globals (Sample.countdown 101)) =
    skipn 1 (stored_readings Sample.loaded initial_globals
               (Sample.countdown 101)).
Proof.
  apply (proj2 (history_is_last_hundred Sample.loaded (Sample.countdown 101))).
  vm_compute. lia.
Defined.

(** ** Validation *)

Lemma keys_not_in_obj (members : list (string * json)) (xs : list string)
    (w : world) :
  keys_not_in (JObj members) xs w =
    (Returned (filter (fun k => negb (has_key k members)) xs), w).
Proof.
  induction xs as [| x xs IH]; [reflexivity |].
  cbn [keys_not_in filter]. unfold bind at 1. cbn [py_contains ret].
  unfold bind. rewrite IH. cbn. now destruct (has_key x members).
Qed.

(** C6.  With both artifacts loaded, a request whose payload is a JSON
    object lacking at least one of the four required keys is answered 400
    with the message that lists, in the order temperature, humidity,
    air_flow, mrt, exactly the keys that are absent; the globals are
    untouched and the only call made is the one that reads the payload: no
    value is coerced, nothing is scaled or predicted. *)
Theorem missing_fields_rejected (E : env) (g : globals) (r : request)
    (mdl : keras_model) (scl : sk_scaler) (members : list (string * json)) :
  model E = Some mdl -> scaler E = Some scl ->
  req_json r = Returned (JObj members) ->
  filter (fun k => negb (has_key k members)) required_fields <> [] ->
  serve E g (Predict r) =
    mk_served
      (Returned
         (jsonify_error
            ("Parameter berikut harus diisi: "
               ++ String.concat ", "
                    (filter (fun k => negb (has_key k members))
                       required_fields))
            400))
      g [EvGetJson] /\
  (forall k,
     In k (filter (fun k => negb (has_key k members)) required_fields) <->
     In k required_fields /\ has_key k members = false).
Proof.
  intros Hm Hs Hj Hmiss. split.
  - unfold serve, handler, predict. rewrite Hm, Hs.
    unfold predict_body, try_except, get_json.
    unfold bind at 1. unfold bind at 1. cbn [emit]. unfold lift. rewrite Hj.
    unfold bind at 1. rewrite keys_not_in_obj.
    destruct (filter _ required_fields) as [| k ks] eqn:Hf;
      [now elim Hmiss |].
    destruct g. reflexivity.
  - intros k. rewrite filter_In, negb_true_iff. reflexivity.
Qed.

(** The request of the specification: temperature and humidity only. *)
Lemma missing_air_flow_and_mrt :
  serve Sample.loaded initial_globals (Sample.post Sample.two_keys Sample.noon) =
    mk_served
      (Returned
         (jsonify_error "Parameter berikut harus diisi: air_flow, mrt" 400))
      initial_globals [EvGetJson].
Proof.
  apply (missing_fields_rejected Sample.loaded initial_globals
           (mk_request (Returned Sample.two_keys) Sample.noon)
           Sample.first_feature_model Sample.identity_scaler
           [("temperature", JInt 26); ("humidity", JInt 55)]);
    [reflexivity | reflexivity | reflexivity | discriminate].
Defined.

(** ** Coercion *)

(** C7 does not hold of the code.  With all four keys present, a null
    temperature cannot be coerced: [float] raises a [TypeError], which
    [except ValueError] lets pass and [except Exception] catches, so the
    answer is 500 with the text of the exception instead of the generic
    400 that the handler sends for values that are not numbers. *)
Lemma null_field_is_answered_500 :
  serve Sample.loaded initial_globals
    (Sample.post (Sample.reading JNull) Sample.noon) =
    mk_served
      (Returned
         (jsonify_error
            "float() argument must be a string or a real number, not 'NoneType'"
            500))
      initial_globals
      [EvGetJson; EvFloat JNull;
       EvPrintError
         "Error pada prediksi: float() argument must be a string or a real number, not 'NoneType'"].
Proof. vm_compute. reflexivity. Qed.

(** The same for an integer too large for a float. *)
Lemma huge_int_is_answered_500 :
  answer (serve Sample.loaded initial_globals
            (Sample.post (Sample.reading (JInt (2 ^ 1024))) Sample.noon)) =
    Returned (jsonify_error "int too large to convert to float" 500).
Proof. vm_compute. reflexivity. Qed.

(** A text that the float parser rejects is answered with the generic 400
    when no earlier field has failed otherwise. *)
Lemma text_field_is_answered_400 :
  serve Sample.loaded initial_globals
    (Sample.post (Sample.reading (JStr "abc")) Sample.noon) =
    mk_served
      (Returned (jsonify_error "Semua parameter harus berupa angka!" 400))
      initial_globals
      [EvGetJson; EvFloat (JStr "abc")].
Proof. vm_compute. reflexivity. Qed.

(** ** Degraded mode *)

Lemma load_artifacts_failed (lm : outcome keras_model) (ls : outcome sk_scaler) :
  (exists e, lm = Raised e) \/ (exists e, ls = Raised e) ->
  load_artifacts lm ls = (None, None).
Proof.
  intros [[e ->] | [e ->]]; [reflexivity |].
  now destruct lm.
Qed.

(** C8.  When loading the model or the scaler raised at start-up, the
    process still starts, with its initial globals and both handles
    unavailable; from then on every POST /predict, whatever its payload, is
    answered 500 "Model atau scaler tidak dimuat dengan benar!" with no
    call made (the payload is not even read) and the globals untouched,
    while GET /, GET /get-sensor-data and GET /get-sensor-data-history
    answer 200 as usual. *)
Theorem degraded_mode (lm : outcome keras_model) (ls : outcome sk_scaler)
    (parse : string -> option float) :
  (exists e, lm = Raised e) \/ (exists e, ls = Raised e) ->
  let E := fst (startup lm ls parse) in
  snd (startup lm ls parse) = initial_globals /\
  model E = None /\ scaler E = None /\
  (forall g r,
     serve E g (Predict r) =
       mk_served
         (Returned
            (jsonify_error "Model atau scaler tidak dimuat dengan benar!" 500))
         g []) /\
  (forall g,
     serve E g Home =
       mk_served
         (Returned
            (mk_response
               (BObj [("message", VStr "PMV Prediction API is running!")])
               200))
         g []) /\
  (forall g,
     serve E g GetSensorData =
       mk_served (Returned (mk_response (BObj (latest_sensor_data g)) 200))
         g []) /\
  (forall g,
     serve E g GetSensorDataHistory =
       mk_served (Returned (mk_response (BArr (sensor_data_history g)) 200))
         g []).
Proof.
  intros H E. unfold E, startup. rewrite (load_artifacts_failed lm ls H).
  cbn [fst snd model scaler]. repeat split.
Qed.

(** Start-up without the model file. *)
Lemma degraded_without_model_file :
  serve Sample.degraded initial_globals
    (Sample.post (Sample.reading (JInt 26)) Sample.noon) =
    mk_served
      (Returned
         (jsonify_error "Model atau scaler tidak dimuat dengan benar!" 500))
      initial_globals [] /\
  serve Sample.degraded initial_globals GetSensorData =
    mk_served (Returned (mk_response (BObj initial_latest) 200))
      initial_globals [].
Proof.
  pose proof (degraded_mode (Raised Sample.file_not_found)
                (Returned Sample.identity_scaler) Sample.parse
                (or_introl (ex_intro _ Sample.file_not_found eq_refl)))
    as (_ & _ & _ & Hp & _ & Hg & _).
  split; [apply Hp | apply Hg].
Defined.

(** ** Failures leave the state alone *)

(** C9.  A request changes the globals only if it is a POST /predict that
    is answered 200: after a prediction that fails in any way (artifacts
    unavailable, missing fields, a coercion failure, an exception while
    scaling or predicting) and after every GET, the latest reading and the
    history are what they were before. *)
Theorem only_success_mutates (E : env) (g : globals) (o : op) :
  mutating E g o = false -> after (serve E g o) = g.
Proof.
  intros H.
  destruct (serve_effect E g o) as [(Ha & _) | (d & _ & Hd & Hs)].
  - exact Ha.
  - destruct o; cbn [mutating] in H; try discriminate Hd.
    congruence.
Qed.

(** A prediction that fails while coercing leaves the initial globals. *)
Lemma failed_coercion_leaves_state :
  mutating Sample.loaded initial_globals
    (Sample.post (Sample.reading JNull) Sample.noon) = false /\
  after (serve Sample.loaded initial_globals
           (Sample.post (Sample.reading JNull) Sample.noon)) = initial_globals.
Proof.
  split; [reflexivity |].
  apply (only_success_mutates Sample.loaded initial_globals
           (Sample.post (Sample.reading JNull) Sample.noon)).
  reflexivity.
Defined.

(** * Further properties of the handlers *)

(** ** The classifier and the clamp together *)

(** The label is one of the seven. *)
Theorem label_is_one_of_seven (p : float) :
  In (get_thermal_comfort_status p) labels.
Proof.
  unfold get_thermal_comfort_status, labels.
  repeat match goal with
         | |- context [if ?c then _ else _] => destruct c
         end; cbn; tauto.
Qed.

(** The label tells the branch: each label is returned only by inputs that
    satisfy its range condition. *)
Lemma label_decides_row (p : float) :
  (get_thermal_comfort_status p = "Cold" -> le p neg_three = true) /\
  (get_thermal_comfort_status p = "Hot" -> no_row_matches p = true).
Proof.
  unfold get_thermal_comfort_status, no_row_matches, comfort_rows.
  cbn [forallb fst].
  repeat match goal with
         | |- context [if ?c then _ else _] => destruct c
         end; split; intros H; first [discriminate H | reflexivity].
Qed.

(** Clamping to [[-3.0, 3.0]] before classifying never changes the label:
    the label of the clamped value is the label of the raw value. *)
Theorem clamp_keeps_label (raw : float) :
  get_thermal_comfort_status (np_clip raw neg_three three) =
  get_thermal_comfort_status raw.
Proof.
  destruct (is_nan raw) eqn:Hn.
  { apply is_nan_eq in Hn. subst raw. reflexivity. }
  unfold np_clip, np_max, np_min. rewrite Hn.
  destruct (lt neg_three raw) eqn:L.
  - rewrite Hn. destruct (lt raw three) eqn:U; [reflexivity |].
    symmetry. apply no_row_is_hot. apply no_row_above_three; [exact Hn |].
    rank_arith.
  - cbn [is_nan neg_three SFopp three of_bits].
    change (S754_finite (negb false) 6755399441055744 (-51)) with neg_three.
    change (lt neg_three three) with true. cbv iota.
    symmetry. eapply row_decides with (cond := fun p => le p neg_three).
    + unfold comfort_rows. cbn [In]. tauto.
    + cbv beta. rank_arith.
Qed.

(** The level of the label counts the thresholds that the input has
    reached. *)
Lemma level_thresholds (p : float) :
  is_nan p = false ->
  let l := label_level (get_thermal_comfort_status p) in
  (lt neg_three p = true <-> -2 <= l) /\
  (lt neg_two p = true <-> -1 <= l) /\
  (lt neg_one p = true <-> 0 <= l) /\
  (le one p = true <-> 1 <= l) /\
  (le two p = true <-> 2 <= l) /\
  (le three p = true <-> 3 <= l) /\
  -3 <= l <= 3.
Proof.
  intros Hp. unfold get_thermal_comfort_status.
  repeat match goal with
         | |- context [if ?c then _ else _] => destruct c eqn:?
         end;
    cbv [label_level String.eqb Ascii.eqb Bool.eqb]; cbv zeta;
    repeat split; try lia; intros G; first [lia | rank_arith].
Qed.

(** The classifier is monotone: a larger pmv never gets a colder label. *)
Theorem classifier_is_monotone (p q : float) :
  le p q = true ->
  label_level (get_thermal_comfort_status p) <=
  label_level (get_thermal_comfort_status q).
Proof.
  intros H. destruct (le_not_nan _ _ H) as [Hp Hq].
  assert (T1 : lt neg_three p = true -> lt neg_three q = true)
    by (intros G; rank_arith).
  assert (T2 : lt neg_two p = true -> lt neg_two q = true)
    by (intros G; rank_arith).
  assert (T3 : lt neg_one p = true -> lt neg_one q = true)
    by (intros G; rank_arith).
  assert (T4 : le one p = true -> le one q = true)
    by (intros G; rank_arith).
  assert (T5 : le two p = true -> le two q = true)
    by (intros G; rank_arith).
  assert (T6 : le three p = true -> le three q = true)
    by (intros G; rank_arith).
  clear H.
  pose proof (level_thresholds p Hp) as (P1 & P2 & P3 & P4 & P5 & P6 & Pb).
  pose proof (level_thresholds q Hq) as (Q1 & Q2 & Q3 & Q4 & Q5 & Q6 & Qb).
  cbv zeta in *.
  set (lp := label_level (get_thermal_comfort_status p)) in *.
  set (lq := label_level (get_thermal_comfort_status q)) in *.
  assert (K1 : -2 <= lp -> -2 <= lq) by tauto.
  assert (K2 : -1 <= lp -> -1 <= lq) by tauto.
  assert (K3 : 0 <= lp -> 0 <= lq) by tauto.
  assert (K4 : 1 <= lp -> 1 <= lq) by tauto.
  assert (K5 : 2 <= lp -> 2 <= lq) by tauto.
  assert (K6 : 3 <= lp -> 3 <= lq) by tauto.
  clear - K1 K2 K3 K4 K5 K6 Pb Qb. lia.
Qed.

(** The order of two labels, at concrete values. *)
Lemma classifier_is_monotone_example :
  le neg_two one = true /\
  label_level (get_thermal_comfort_status neg_two) <=
  label_level (get_thermal_comfort_status one).
Proof.
  split; [reflexivity |].
  apply (classifier_is_monotone neg_two one). reflexivity.
Defined.

(** After the clamp, the two outermost labels are given at the bounds
    only: a clamped value labelled "Cold" is -3.0 itself, and one labelled
    "Hot" is 3.0 itself unless the raw value was NaN. *)
Theorem extreme_labels_at_bounds (raw : float) :
  is_nan raw = false ->
  (get_thermal_comfort_status (np_clip raw neg_three three) = "Cold" ->
   np_clip raw neg_three three = neg_three) /\
  (get_thermal_comfort_status (np_clip raw neg_three three) = "Hot" ->
   np_clip raw neg_three three = three).
Proof.
  intros Hn. rewrite clamp_keeps_label.
  destruct (label_decides_row raw) as [Hc Hh].
  split; intros H.
  - apply Hc in H. unfold np_clip, np_max, np_min. rewrite Hn.
    assert (L : lt neg_three raw = false) by rank_arith.
    rewrite L. reflexivity.
  - apply Hh in H. apply no_row_above_three in H; [| exact Hn].
    unfold np_clip, np_max, np_min. rewrite Hn.
    assert (L : lt neg_three raw = true) by rank_arith.
    assert (U : lt raw three = false) by rank_arith.
    rewrite L, Hn, U. reflexivity.
Qed.

(** The bounds at an infinite raw value. *)
Lemma extreme_labels_at_infinity :
  is_nan neg_inf = false /\
  np_clip neg_inf neg_three three = neg_three.
Proof.
  split; [reflexivity |].
  apply (proj1 (extreme_labels_at_bounds neg_inf eq_refl)). reflexivity.
Defined.

(** ** Handlers step by step *)

Lemma py_float_run (parse : string -> option float) (v : json) (w : world) :
  py_float parse v w =
    (float_value parse v, mk_world (glob w) (log w ++ [EvFloat v])).
Proof.
  unfold py_float, float_value, bind, emit.
  destruct v; try reflexivity.
  - destruct (of_Z n); reflexivity.
  - destruct (parse s); reflexivity.
Qed.

Lemma py_getitem_obj (members : list (string * json)) (key : string)
    (v : json) (w : world) :
  lookup key members = Some v ->
  py_getitem (JObj members) key w = (Returned v, w).
Proof. intros H. unfold py_getitem. now rewrite H. Qed.

Lemma has_key_lookup (members : list (string * json)) (key : string) :
  has_key key members = true <-> exists v, lookup key members = Some v.
Proof.
  unfold has_key. induction members as [| [k v] ms IH]; cbn.
  - split; [discriminate | intros [v H]; discriminate H].
  - destruct (String.eqb k key); cbn; [| exact IH].
    split; [eauto | reflexivity].
Qed.

Lemma none_missing (members : list (string * json)) (t h a m : json) :
  lookup "temperature" members = Some t ->
  lookup "humidity" members = Some h ->
  lookup "air_flow" members = Some a ->
  lookup "mrt" members = Some m ->
  filter (fun k => negb (has_key k members)) required_fields = [].
Proof.
  intros Ht Hh Ha Hm. unfold required_fields. cbn [filter].
  rewrite !(proj2 (has_key_lookup members _)) by eauto. reflexivity.
Qed.

Section Coercion.

Variables (E : env) (members : list (string * json)) (t h a m : json).
Hypothesis Ht : lookup "temperature" members = Some t.
Hypothesis Hh : lookup "humidity" members = Some h.
Hypothesis Ha : lookup "air_flow" members = Some a.
Hypothesis Hm : lookup "mrt" members = Some m.

Ltac coerce_step :=
  unfold bind at 1; erewrite py_getitem_obj by eassumption;
  unfold bind at 1; rewrite py_float_run.

Lemma coerce_fields_ok (ft fh fa fm : float) (w : world) :
  float_value (float_of_str E) t = Returned ft ->
  float_value (float_of_str E) h = Returned fh ->
  float_value (float_of_str E) a = Returned fa ->
  float_value (float_of_str E) m = Returned fm ->
  coerce_fields E (JObj members) w =
    ( Returned (inr (ft, fh, fa, fm)),
      mk_world (glob w)
        (log w ++ [EvFloat t; EvFloat h; EvFloat a; EvFloat m]) ).
Proof.
  intros Ft Fh Fa Fm. unfold coerce_fields, try_except.
  coerce_step. rewrite Ft. coerce_step. rewrite Fh.
  coerce_step. rewrite Fa. coerce_step. rewrite Fm.
  cbn. now rewrite <- !app_assoc.
Qed.

Lemma coerce_fields_raised (e : exn) (tried : list json) (w : world) :
  first_raised (float_of_str E) [t; h; a; m] = Some (e, tried) ->
  coerce_fields E (JObj members) w =
    ( (if is_ValueError (exn_cls e)
       then Returned (inl (jsonify_error "Semua parameter harus berupa angka!" 400))
       else Raised e),
      mk_world (glob w) (log w ++ map EvFloat tried) ).
Proof.
  cbn [first_raised]. intros H. unfold coerce_fields, try_except.
  coerce_step. destruct (float_value (float_of_str E) t) as [ft | e1].
  2: { injection H as <- <-. cbn. now destruct (is_ValueError (exn_cls e1)). }
  coerce_step. destruct (float_value (float_of_str E) h) as [fh | e2].
  2: { injection H as <- <-. cbn. rewrite <- !app_assoc.
       now destruct (is_ValueError (exn_cls e2)). }
  coerce_step. destruct (float_value (float_of_str E) a) as [fa | e3].
  2: { injection H as <- <-. cbn. rewrite <- !app_assoc.
       now destruct (is_ValueError (exn_cls e3)). }
  coerce_step. destruct (float_value (float_of_str E) m) as [fm | e4].
  2: { injection H as <- <-. cbn. rewrite <- !app_assoc.
       now destruct (is_ValueError (exn_cls e4)). }
  discriminate H.
Qed.

End Coercion.

Section Inference.

Variables (mdl : keras_model) (scl : sk_scaler) (x : list (list float)).

Lemma infer_ok (scaled rows : list (list float)) (raw : float)
    (rest : list float) (w : world) :
  scl x = Returned scaled -> mdl scaled = Returned ((raw :: rest) :: rows) ->
  infer mdl scl x w =
    ( Returned (scaled, raw),
      mk_world (glob w) (log w ++ [EvTransform x; EvPredict scaled]) ).
Proof.
  intros Hs Hp.
  unfold infer, scaler_transform, model_predict, bind, emit, lift.
  cbn. rewrite Hs. cbn. rewrite Hp. cbn. now rewrite <- app_assoc.
Qed.

Lemma infer_scaler_raised (e : exn) (w : world) :
  scl x = Raised e ->
  infer mdl scl x w =
    (Raised e, mk_world (glob w) (log w ++ [EvTransform x])).
Proof.
  intros Hs. unfold infer, scaler_transform, bind, emit, lift.
  cbn. now rewrite Hs.
Qed.

Lemma infer_model_raised (scaled : list (list float)) (e : exn) (w : world) :
  scl x = Returned scaled -> mdl scaled = Raised e ->
  infer mdl scl x w =
    ( Raised e,
      mk_world (glob w) (log w ++ [EvTransform x; EvPredict scaled]) ).
Proof.
  intros Hs Hp.
  unfold infer, scaler_transform, model_predict, bind, emit, lift.
  cbn. rewrite Hs. cbn. rewrite Hp. cbn. now rewrite <- app_assoc.
Qed.

End Inference.

(** The handler up to the coercion step, when the payload is an object
    that holds the four keys. *)
Lemma predict_body_validated (E : env) (mdl : keras_model) (scl : sk_scaler)
    (r : request) (members : list (string * json)) (t h a m : json)
    (g : globals) :
  req_json r = Returned (JObj members) ->
  lookup "temperature" members = Some t ->
  lookup "humidity" members = Some h ->
  lookup "air_flow" members = Some a ->
  lookup "mrt" members = Some m ->
  predict_body E mdl scl r (mk_world g []) =
    try_except
      (bind (coerce_fields E (JObj members))
         (fun parsed =>
            match parsed with
            | inl early => ret early
            | inr (suhu, humidity, air_flow, mrt) =>
                bind (infer mdl scl [[suhu; humidity; air_flow; mrt]])
                  (fun '(input_scaled, raw) =>
                     clamp_and_store r suhu humidity air_flow mrt
                       input_scaled raw)
            end))
      is_Exception
      (fun e =>
         bind (emit (EvPrintError ("Error pada prediksi: " ++ exn_msg e)))
           (fun _ => ret (jsonify_error (exn_msg e) 500)))
      (mk_world g [EvGetJson]).
Proof.
  intros Hj Ht Hh Ha Hm. unfold predict_body, try_except, get_json.
  unfold bind at 1. unfold bind at 1. cbn [emit]. unfold lift. rewrite Hj.
  unfold bind at 1. rewrite keys_not_in_obj.
  rewrite (none_missing members t h a m Ht Hh Ha Hm). reflexivity.
Qed.

(** ** A prediction, end to end *)

(** With both artifacts loaded, a payload object whose four values convert
    to floats, a scaler and a model that return: the request is answered
    200 with the clamped output and its label; the reading built from the
    clock, the four converted inputs, the clamped output and the label is
    stored; and the calls are, in this order, reading the payload, the
    four conversions in the order temperature, humidity, air_flow, mrt,
    the scaling of that feature row, the prediction on the scaled row, the
    clock and the log line. *)
Theorem prediction_end_to_end (E : env) (g : globals) (r : request)
    (mdl : keras_model) (scl : sk_scaler) (members : list (string * json))
    (t h a m : json) (ft fh fa fm raw : float)
    (scaled rows : list (list float)) (rest : list float) :
  model E = Some mdl -> scaler E = Some scl ->
  req_json r = Returned (JObj members) ->
  lookup "temperature" members = Some t ->
  lookup "humidity" members = Some h ->
  lookup "air_flow" members = Some a ->
  lookup "mrt" members = Some m ->
  float_value (float_of_str E) t = Returned ft ->
  float_value (float_of_str E) h = Returned fh ->
  float_value (float_of_str E) a = Returned fa ->
  float_value (float_of_str E) m = Returned fm ->
  scl [[ft; fh; fa; fm]] = Returned scaled ->
  mdl scaled = Returned ((raw :: rest) :: rows) ->
  let pmv := np_clip raw neg_three three in
  let tc := get_thermal_comfort_status pmv in
  serve E g (Predict r) =
    mk_served
      (Returned
         (mk_response
            (BObj [("pmv", VFloat pmv); ("thermal_comfort", VStr tc)]) 200))
      (store_reading (make_reading (req_now r) ft fh fa fm pmv tc) g)
      [EvGetJson; EvFloat t; EvFloat h; EvFloat a; EvFloat m;
       EvTransform [[ft; fh; fa; fm]]; EvPredict scaled; EvNow;
       EvPrintPrediction [[ft; fh; fa; fm]] scaled pmv tc].
Proof.
  intros Hmd Hsc Hj Ht Hh Ha Hm Ft Fh Fa Fm Hs Hp pmv tc.
  unfold serve, handler, predict. rewrite Hmd, Hsc.
  rewrite (predict_body_validated E mdl scl r members t h a m g Hj Ht Hh Ha Hm).
  unfold try_except. unfold bind at 1.
  rewrite (coerce_fields_ok E members t h a m Ht Hh Ha Hm ft fh fa fm) by assumption.
  unfold bind at 1.
  rewrite (infer_ok mdl scl _ scaled rows raw rest) by assumption.
  rewrite clamp_and_store_run. reflexivity.
Qed.

(** The request of the specification's example, on the sample deployment. *)
Lemma prediction_end_to_end_example :
  answer (serve Sample.loaded initial_globals
            (Sample.post (Sample.reading (JInt 26)) Sample.noon)) =
    Returned
      (mk_response
         (BObj [("pmv", VFloat three); ("thermal_comfort", VStr "Hot")]) 200).
Proof.
  unfold Sample.post.
  rewrite (prediction_end_to_end Sample.loaded initial_globals
             (mk_request (Returned (Sample.reading (JInt 26))) Sample.noon)
             Sample.first_feature_model Sample.identity_scaler
             [("temperature", JInt 26); ("humidity", JInt 55);
              ("air_flow", JFloat Sample.fl_0_2); ("mrt", JInt 27)]
             (JInt 26) (JInt 55) (JFloat Sample.fl_0_2) (JInt 27)
             (Sample.fl 26) (Sample.fl 55) Sample.fl_0_2 (Sample.fl 27)
             (Sample.fl 26)
             [[Sample.fl 26; Sample.fl 55; Sample.fl_0_2; Sample.fl 27]]
             [] []
             eq_refl eq_refl eq_refl eq_refl eq_refl eq_refl eq_refl
             eq_refl eq_refl eq_refl eq_refl eq_refl eq_refl).
  reflexivity.
Defined.

(** ** Failures after validation *)

(** With the four keys present, the first value whose conversion raises
    decides the answer: the generic 400 when it raised [ValueError], and
    500 with the text of the exception otherwise.  In both cases the
    globals are untouched, the later values are not converted and neither
    the scaler nor the model is called. *)
Theorem first_bad_value_decides (E : env) (g : globals) (r : request)
    (mdl : keras_model) (scl : sk_scaler) (members : list (string * json))
    (t h a m : json) (e : exn) (tried : list json) :
  model E = Some mdl -> scaler E = Some scl ->
  req_json r = Returned (JObj members) ->
  lookup "temperature" members = Some t ->
  lookup "humidity" members = Some h ->
  lookup "air_flow" members = Some a ->
  lookup "mrt" members = Some m ->
  first_raised (float_of_str E) [t; h; a; m] = Some (e, tried) ->
  serve E g (Predict r) =
    if is_ValueError (exn_cls e)
    then mk_served
           (Returned (jsonify_error "Semua parameter harus berupa angka!" 400))
           g (EvGetJson :: map EvFloat tried)
    else mk_served
           (Returned (jsonify_error (exn_msg e) 500))
           g (EvGetJson :: map EvFloat tried
                ++ [EvPrintError ("Error pada prediksi: " ++ exn_msg e)]).
Proof.
  intros Hmd Hsc Hj Ht Hh Ha Hm Hf.
  unfold serve, handler, predict. rewrite Hmd, Hsc.
  rewrite (predict_body_validated E mdl scl r members t h a m g Hj Ht Hh Ha Hm).
  unfold try_except. unfold bind at 1.
  rewrite (coerce_fields_raised E members t h a m Ht Hh Ha Hm e tried) by exact Hf.
  destruct (is_ValueError (exn_cls e)); reflexivity.
Qed.

(** A list where a number is expected, after a valid temperature. *)
Lemma first_bad_value_decides_example :
  serve Sample.loaded initial_globals
    (Sample.post
       (JObj [("temperature", JInt 26); ("humidity", JArr []);
              ("air_flow", JStr "abc"); ("mrt", JInt 27)])
       Sample.noon) =
    mk_served
      (Returned
         (jsonify_error
            "float() argument must be a string or a real number, not 'list'"
            500))
      initial_globals
      [EvGetJson; EvFloat (JInt 26); EvFloat (JArr []);
       EvPrintError
         "Error pada prediksi: float() argument must be a string or a real number, not 'list'"].
Proof.
  exact (first_bad_value_decides Sample.loaded initial_globals
           (mk_request
              (Returned
                 (JObj [("temperature", JInt 26); ("humidity", JArr []);
                        ("air_flow", JStr "abc"); ("mrt", JInt 27)]))
              Sample.noon)
           Sample.first_feature_model Sample.identity_scaler
           [("temperature", JInt 26); ("humidity", JArr []);
            ("air_flow", JStr "abc"); ("mrt", JInt 27)]
           (JInt 26) (JArr []) (JStr "abc") (JInt 27)
           (mk_exn TypeError
              "float() argument must be a string or a real number, not 'list'")
           [JInt 26; JArr []]
           eq_refl eq_refl eq_refl eq_refl eq_refl eq_refl eq_refl eq_refl).
Defined.

Section AfterCoercion.

Variables (E : env) (g : globals) (r : request) (mdl : keras_model)
  (scl : sk_scaler) (members : list (string * json)) (t h a m : json)
  (ft fh fa fm : float).
Hypothesis Hmd : model E = Some mdl.
Hypothesis Hsc : scaler E = Some scl.
Hypothesis Hj : req_json r = Returned (JObj members).
Hypothesis Ht : lookup "temperature" members = Some t.
Hypothesis Hh : lookup "humidity" members = Some h.
Hypothesis Ha : lookup "air_flow" members = Some a.
Hypothesis Hm : lookup "mrt" members = Some m.
Hypothesis Ft : float_value (float_of_str E) t = Returned ft.
Hypothesis Fh : float_value (float_of_str E) h = Returned fh.
Hypothesis Fa : float_value (float_of_str E) a = Returned fa.
Hypothesis Fm : float_value (float_of_str E) m = Returned fm.

(** When the scaler raises, the answer is 500 with the text of its
    exception, the model is never called and the globals are untouched. *)
Theorem scaler_error_is_surfaced (e : exn) :
  scl [[ft; fh; fa; fm]] = Raised e ->
  serve E g (Predict r) =
    mk_served
      (Returned (jsonify_error (exn_msg e) 500))
      g
      [EvGetJson; EvFloat t; EvFloat h; EvFloat a; EvFloat m;
       EvTransform [[ft; fh; fa; fm]];
       EvPrintError ("Error pada prediksi: " ++ exn_msg e)].
Proof.
  intros Hs. unfold serve, handler, predict. rewrite Hmd, Hsc.
  rewrite (predict_body_validated E mdl scl r members t h a m g Hj Ht Hh Ha Hm).
  unfold try_except. unfold bind at 1.
  rewrite (coerce_fields_ok E members t h a m Ht Hh Ha Hm ft fh fa fm) by assumption.
  unfold bind at 1.
  rewrite (infer_scaler_raised mdl scl _ e) by assumption.
  reflexivity.
Qed.

(** When the model raises, or returns an array from which the scalar at
    [[0][0]] cannot be taken, the answer is 500 with the text of the
    exception and the globals are untouched: nothing is stored for a
    request whose inference failed. *)
Theorem model_error_is_surfaced (scaled : list (list float)) :
  scl [[ft; fh; fa; fm]] = Returned scaled ->
  (forall e,
     mdl scaled = Raised e ->
     serve E g (Predict r) =
       mk_served
         (Returned (jsonify_error (exn_msg e) 500))
         g
         [EvGetJson; EvFloat t; EvFloat h; EvFloat a; EvFloat m;
          EvTransform [[ft; fh; fa; fm]]; EvPredict scaled;
          EvPrintError ("Error pada prediksi: " ++ exn_msg e)]) /\
  (forall rows,
     mdl scaled = Returned [] \/ mdl scaled = Returned ([] :: rows) ->
     serve E g (Predict r) =
       mk_served
         (Returned
            (jsonify_error "index 0 is out of bounds for axis 0 with size 0"
               500))
         g
         [EvGetJson; EvFloat t; EvFloat h; EvFloat a; EvFloat m;
          EvTransform [[ft; fh; fa; fm]]; EvPredict scaled;
          EvPrintError
            "Error pada prediksi: index 0 is out of bounds for axis 0 with size 0"]).
Proof.
  intros Hs. split.
  - intros e Hp. unfold serve, handler, predict. rewrite Hmd, Hsc.
    rewrite (predict_body_validated E mdl scl r members t h a m g Hj Ht Hh Ha Hm).
    unfold try_except. unfold bind at 1.
    rewrite (coerce_fields_ok E members t h a m Ht Hh Ha Hm ft fh fa fm) by assumption.
    unfold bind at 1.
    rewrite (infer_model_raised mdl scl _ scaled e) by assumption.
    reflexivity.
  - intros rows Hp. unfold serve, handler, predict. rewrite Hmd, Hsc.
    rewrite (predict_body_validated E mdl scl r members t h a m g Hj Ht Hh Ha Hm).
    unfold try_except. unfold bind at 1.
    rewrite (coerce_fields_ok E members t h a m Ht Hh Ha Hm ft fh fa fm) by assumption.
    unfold bind at 1.
    unfold infer, scaler_transform, model_predict, bind, emit, lift.
    cbn. rewrite Hs. cbn.
    destruct Hp as [-> | ->]; reflexivity.
Qed.

End AfterCoercion.

(** The scaler of the deployment raises. *)
Lemma scaler_error_is_surfaced_example :
  serve Scenarios.with_failing_scaler initial_globals
    (Sample.post (Sample.reading (JInt 26)) Sample.noon) =
    mk_served
      (Returned
         (jsonify_error "X has 4 features, but the scaler is expecting 3" 500))
      initial_globals
      [EvGetJson; EvFloat (JInt 26); EvFloat (JInt 55);
       EvFloat (JFloat Sample.fl_0_2); EvFloat (JInt 27);
       EvTransform
         [[Sample.fl 26; Sample.fl 55; Sample.fl_0_2; Sample.fl 27]];
       EvPrintError
         "Error pada prediksi: X has 4 features, but the scaler is expecting 3"].
Proof.
  exact (scaler_error_is_surfaced Scenarios.with_failing_scaler initial_globals
           (mk_request (Returned (Sample.reading (JInt 26))) Sample.noon)
           Sample.first_feature_model Scenarios.failing_scaler
           [("temperature", JInt 26); ("humidity", JInt 55);
            ("air_flow", JFloat Sample.fl_0_2); ("mrt", JInt 27)]
           (JInt 26) (JInt 55) (JFloat Sample.fl_0_2) (JInt 27)
           (Sample.fl 26) (Sample.fl 55) Sample.fl_0_2 (Sample.fl 27)
           eq_refl eq_refl eq_refl eq_refl eq_refl eq_refl eq_refl
           eq_refl eq_refl eq_refl eq_refl
           Scenarios.shape_error eq_refl).
Defined.

(** The model of the deployment raises. *)
Lemma model_error_is_surfaced_example :
  serve Scenarios.with_failing_model initial_globals
    (Sample.post (Sample.reading (JInt 26)) Sample.noon) =
    mk_served
      (Returned (jsonify_error "Graph execution error" 500))
      initial_globals
      [EvGetJson; EvFloat (JInt 26); EvFloat (JInt 55);
       EvFloat (JFloat Sample.fl_0_2); EvFloat (JInt 27);
       EvTransform
         [[Sample.fl 26; Sample.fl 55; Sample.fl_0_2; Sample.fl 27]];
       EvPredict
         [[Sample.fl 26; Sample.fl 55; Sample.fl_0_2; Sample.fl 27]];
       EvPrintError "Error pada prediksi: Graph execution error"].
Proof.
  exact (proj1
           (model_error_is_surfaced Scenarios.with_failing_model
              initial_globals
              (mk_request (Returned (Sample.reading (JInt 26))) Sample.noon)
              Scenarios.failing_model Sample.identity_scaler
              [("temperature", JInt 26); ("humidity", JInt 55);
               ("air_flow", JFloat Sample.fl_0_2); ("mrt", JInt 27)]
              (JInt 26) (JInt 55) (JFloat Sample.fl_0_2) (JInt 27)
              (Sample.fl 26) (Sample.fl 55) Sample.fl_0_2 (Sample.fl 27)
              eq_refl eq_refl eq_refl eq_refl eq_refl eq_refl eq_refl
              eq_refl eq_refl eq_refl eq_refl
              [[Sample.fl 26; Sample.fl 55; Sample.fl_0_2; Sample.fl 27]]
              eq_refl)
           Scenarios.graph_error eq_refl).
Defined.

(** ** Payloads that are not objects *)

(** When reading the payload raises, or the payload is neither an object,
    a list nor a string (null, a number, a boolean), the membership test of
    the validation raises: the answer is 500 with the text of the
    exception, the globals are untouched, and no value is converted. *)
Theorem unusable_payload_is_answered_500 (E : env) (g : globals)
    (r : request) (mdl : keras_model) (scl : sk_scaler) :
  model E = Some mdl -> scaler E = Some scl ->
  (forall e,
     req_json r = Raised e ->
     serve E g (Predict r) =
       mk_served (Returned (jsonify_error (exn_msg e) 500)) g
         [EvGetJson; EvPrintError ("Error pada prediksi: " ++ exn_msg e)]) /\
  (forall data,
     req_json r = Returned data -> not_a_container data = true ->
     serve E g (Predict r) =
       mk_served
         (Returned
            (jsonify_error
               ("argument of type '" ++ type_name data ++ "' is not iterable")
               500))
         g
         [EvGetJson;
          EvPrintError
            ("Error pada prediksi: argument of type '" ++ type_name data
               ++ "' is not iterable")]).
Proof.
  intros Hmd Hsc. split.
  - intros e Hj. unfold serve, handler, predict. rewrite Hmd, Hsc.
    unfold predict_body, try_except, get_json.
    unfold bind at 1. unfold bind at 1. cbn [emit]. unfold lift. rewrite Hj.
    reflexivity.
  - intros data Hj Hn. unfold serve, handler, predict. rewrite Hmd, Hsc.
    unfold predict_body, try_except, get_json.
    unfold bind at 1. unfold bind at 1. cbn [emit]. unfold lift. rewrite Hj.
    destruct data; try discriminate Hn; reflexivity.
Qed.

(** A body that cannot be decoded. *)
Lemma unusable_payload_example :
  serve Sample.loaded initial_globals Scenarios.undecodable =
    mk_served
      (Returned
         (jsonify_error "400 Bad Request: Failed to decode JSON object" 500))
      initial_globals
      [EvGetJson;
       EvPrintError
         "Error pada prediksi: 400 Bad Request: Failed to decode JSON object"].
Proof.
  exact (proj1
           (unusable_payload_is_answered_500 Sample.loaded initial_globals
              (mk_request (Raised Scenarios.bad_request) Sample.noon)
              Sample.first_feature_model Sample.identity_scaler
              eq_refl eq_refl)
           Scenarios.bad_request eq_refl).
Defined.

Lemma keys_not_in_arr (items : list json) (xs : list string) (w : world) :
  keys_not_in (JArr items) xs w =
    (Returned (filter (fun k => negb (existsb (json_is_str k) items)) xs), w).
Proof.
  induction xs as [| x xs IH]; [reflexivity |].
  cbn [keys_not_in filter]. unfold bind at 1. cbn [py_contains ret].
  unfold bind. rewrite IH. cbn. now destruct (existsb (json_is_str x) items).
Qed.

(** A payload that is a list is validated by the names it lists: when a
    required name is not among its string items the answer is the 400 that
    names the absent ones; when all four are listed the validation passes
    and the first subscript raises, which is answered 500.  The globals are
    untouched either way. *)
Theorem list_payload (E : env) (g : globals) (r : request)
    (mdl : keras_model) (scl : sk_scaler) (items : list json) :
  model E = Some mdl -> scaler E = Some scl ->
  req_json r = Returned (JArr items) ->
  serve E g (Predict r) =
    match names_not_listed items with
    | [] =>
        mk_served
          (Returned
             (jsonify_error
                "list indices must be integers or slices, not str" 500))
          g
          [EvGetJson;
           EvPrintError
             "Error pada prediksi: list indices must be integers or slices, not str"]
    | absent =>
        mk_served
          (Returned
             (jsonify_error
                ("Parameter berikut harus diisi: " ++ String.concat ", " absent)
                400))
          g [EvGetJson]
    end.
Proof.
  intros Hmd Hsc Hj. unfold serve, handler, predict. rewrite Hmd, Hsc.
  unfold predict_body, try_except, get_json.
  unfold bind at 1. unfold bind at 1. cbn [emit]. unfold lift. rewrite Hj.
  unfold bind at 1. rewrite keys_not_in_arr. fold (names_not_listed items).
  destruct (names_not_listed items); reflexivity.
Qed.

(** The list of the four names. *)
Lemma list_payload_example :
  answer (serve Sample.loaded initial_globals
            (Sample.post Scenarios.names_only Sample.noon)) =
    Returned
      (jsonify_error "list indices must be integers or slices, not str" 500).
Proof.
  unfold Sample.post.
  rewrite (list_payload Sample.loaded initial_globals
             (mk_request (Returned Scenarios.names_only) Sample.noon)
             Sample.first_feature_model Sample.identity_scaler
             [JStr "temperature"; JStr "humidity"; JStr "air_flow"; JStr "mrt"]
             eq_refl eq_refl eq_refl).
  reflexivity.
Defined.

(** ** What the GET endpoints show *)

(** After any sequence of requests, GET /get-sensor-data answers 200 with
    the reading stored by the most recent prediction that was answered 200,
    or with the all-null placeholder when there was none; and
    GET /get-sensor-data-history answers 200 with the stored readings of the
    predictions answered 200, oldest first, cut to the last hundred. *)
Theorem get_endpoints_show_stored_readings (E : env) (ops : list op) :
  answer (serve E (run E initial_globals ops) GetSensorData) =
    Returned
      (mk_response
         (BObj (last (stored_readings E initial_globals ops) initial_latest))
         200) /\
  answer (serve E (run E initial_globals ops) GetSensorDataHistory) =
    Returned
      (mk_response
         (BArr (keep_last 100 (stored_readings E initial_globals ops))) 200).
Proof.
  rewrite serve_get_sensor_data, serve_get_sensor_data_history.
  cbn [answer]. rewrite latest_of_run, history_of_run.
  - split; reflexivity.
  - cbn. unfold history_limit. lia.
Qed.

(** ** The state as a function of the stored readings *)

(** The globals after a sequence of requests are what storing, one after
    the other, the readings of the predictions answered 200 gives: failed
    predictions and GETs leave no trace. *)
Theorem state_is_fold_of_stored_readings (E : env) (ops : list op)
    (g : globals) :
  run E g ops =
    fold_left (fun g' d => store_reading d g') (stored_readings E g ops) g.
Proof.
  revert g. induction ops as [| o ops IH]; intros g; [reflexivity |].
  rewrite run_cons. cbn [stored_readings].
  destruct (serve_effect E g o) as [(Ha & Hs & _) | (d & Ha & Hs & _)];
    rewrite Hs, Ha.
  - apply IH.
  - cbn [fold_left]. apply IH.
Qed.

(** Removing the GET requests from a sequence changes neither the final
    globals nor the readings stored on the way. *)
Theorem gets_are_invisible (E : env) (ops : list op) (g : globals) :
  run E g (filter is_predict ops) = run E g ops /\
  stored_readings E g (filter is_predict ops) = stored_readings E g ops.
Proof.
  revert g. induction ops as [| o ops IH]; intros g; [split; reflexivity |].
  destruct o as [| r | |]; cbn [filter is_predict].
  - rewrite run_cons. cbn [stored_readings stored_by].
    rewrite serve_home. cbn [after]. apply IH.
  - rewrite !run_cons. cbn [stored_readings].
    destruct (IH (after (serve E g (Predict r)))) as [-> ->].
    split; reflexivity.
  - rewrite run_cons. cbn [stored_readings stored_by].
    rewrite serve_get_sensor_data. cbn [after]. apply IH.
  - rewrite run_cons. cbn [stored_readings stored_by].
    rewrite serve_get_sensor_data_history. cbn [after]. apply IH.
Qed.

(** ** The stored readings are well formed *)

Lemma stored_by_well_formed (E : env) (g : globals) (o : op) (d : dict) :
  stored_by E g o = Some d -> well_formed_reading d.
Proof.
  intros H. apply stored_by_reading in H.
  destruct H as (r & suhu & humidity & air_flow & mrt & raw & _ & -> & _).
  exists (req_now r), suhu, humidity, air_flow, mrt,
    (np_clip raw neg_three three).
  split; [reflexivity |].
  destruct (is_nan raw) eqn:Hn.
  - left. now rewrite np_clip_is_nan.
  - right. now apply np_clip_within.
Qed.

Lemma stored_readings_well_formed (E : env) (ops : list op) (g : globals) :
  Forall well_formed_reading (stored_readings E g ops).
Proof.
  revert g. induction ops as [| o ops IH]; intros g; cbn [stored_readings].
  - constructor.
  - destruct (stored_by E g o) as [d |] eqn:Hs; [| apply IH].
    constructor; [eapply stored_by_well_formed; eassumption | apply IH].
Qed.

Lemma Forall_keep_last {A : Type} (P : A -> Prop) (n : nat) (l : list A) :
  Forall P l -> Forall P (keep_last n l).
Proof.
  intros H. unfold keep_last. rewrite Forall_forall in *.
  intros x Hx. apply H.
  rewrite <- (firstn_skipn (List.length l - n) l). apply in_or_app. now right.
Qed.

(** After any sequence of requests, every reading of the history, and the
    latest reading unless it is still the placeholder, has the seven keys
    of line 95 in their order, a label that is the classification of its
    pmv, and a pmv that is NaN or lies in [[-3.0, 3.0]]. *)
Theorem stored_readings_are_well_formed (E : env) (ops : list op) :
  Forall well_formed_reading
    (sensor_data_history (run E initial_globals ops)) /\
  (latest_sensor_data (run E initial_globals ops) = initial_latest \/
   well_formed_reading (latest_sensor_data (run E initial_globals ops))).
Proof.
  pose proof (stored_readings_well_formed E ops initial_globals) as H.
  split.
  - rewrite history_of_run by (cbn; unfold history_limit; lia).
    cbn [initial_globals sensor_data_history app].
    now apply Forall_keep_last.
  - rewrite latest_of_run. cbn [initial_globals latest_sensor_data].
    destruct (stored_readings E initial_globals ops) as [| d ds] eqn:Hs;
      [now left | right].
    rewrite Forall_forall in H. apply H.
    destruct (exists_last (l := d :: ds)) as (older & x & Hx); [discriminate |].
    rewrite Hx, last_last. apply in_or_app. right. now left.
Qed.

(** ** Predictions do not look at the globals *)

Section Blind.

Context {A B : Type}.

Lemma ignores_ret (a : A) : ignores_globals (ret a).
Proof. intros w w' H. now split. Qed.

Lemma ignores_raise (c : exn_class) (msg : string) :
  ignores_globals (@raise A c msg).
Proof. intros w w' H. now split. Qed.

Lemma ignores_lift (o : outcome A) : ignores_globals (lift o).
Proof. intros w w' H. now split. Qed.

Lemma ignores_bind (c : M A) (k : A -> M B) :
  ignores_globals c -> (forall a, ignores_globals (k a)) ->
  ignores_globals (bind c k).
Proof.
  intros Hc Hk w w' H. unfold bind. destruct (Hc w w' H) as [H1 H2].
  destruct (c w) as [[a | e] w1], (c w') as [[a' | e'] w1'];
    cbn in H1, H2; try discriminate H1.
  - injection H1 as <-. now apply Hk.
  - injection H1 as <-. now split.
Qed.

Lemma ignores_try_except (body : M A) (catches : exn_class -> bool)
    (handler : exn -> M A) :
  ignores_globals body -> (forall e, ignores_globals (handler e)) ->
  ignores_globals (try_except body catches handler).
Proof.
  intros Hb Hh w w' H. unfold try_except. destruct (Hb w w' H) as [H1 H2].
  destruct (body w) as [[a | e] w1], (body w') as [[a' | e'] w1'];
    cbn in H1, H2; try discriminate H1.
  - injection H1 as <-. now split.
  - injection H1 as <-. destruct (catches (exn_cls e)).
    + now apply Hh.
    + now split.
Qed.

End Blind.

Lemma ignores_emit (ev : event) : ignores_globals (emit ev).
Proof. intros w w' H. cbn. now rewrite H. Qed.

Lemma ignores_clamp_and_store (r : request)
    (suhu humidity air_flow mrt : float) (scaled : list (list float))
    (raw : float) :
  ignores_globals (clamp_and_store r suhu humidity air_flow mrt scaled raw).
Proof. intros w w' H. rewrite !clamp_and_store_run. cbn. now rewrite H. Qed.

Create HintDb blind.
#[local] Hint Resolve ignores_ret ignores_raise ignores_lift ignores_emit
  ignores_clamp_and_store : blind.

Ltac blind :=
  repeat first
    [ progress auto with blind
    | apply ignores_bind; [| intros ?]
    | apply ignores_try_except; [| intros ?]
    | match goal with
      | |- ignores_globals (match ?x with _ => _ end) => destruct x
      | |- ignores_globals (if ?x then _ else _) => destruct x
      end ].

Lemma ignores_keys_not_in (data : json) (xs : list string) :
  ignores_globals (keys_not_in data xs).
Proof.
  induction xs as [| x xs IH]; cbn [keys_not_in]; unfold py_contains; blind.
Qed.

#[local] Hint Resolve ignores_keys_not_in : blind.

Lemma ignores_predict (E : env) (r : request) :
  ignores_globals (predict E r).
Proof.
  unfold predict, predict_body, get_json, coerce_fields, infer,
    scaler_transform, model_predict, py_getitem, py_float, item0.
  blind.
Qed.

(** The answer to a POST /predict and the calls it makes are the same
    whatever the latest reading and the history hold: a prediction never
    depends on the requests served before it. *)
Theorem prediction_ignores_history (E : env) (r : request) (g g' : globals) :
  answer (serve E g (Predict r)) = answer (serve E g' (Predict r)) /\
  calls (serve E g (Predict r)) = calls (serve E g' (Predict r)).
Proof.
  unfold serve, handler.
  destruct (ignores_predict E r (mk_world g []) (mk_world g' []) eq_refl)
    as [H1 H2].
  destruct (predict E r (mk_world g [])) as [a w],
    (predict E r (mk_world g' [])) as [a' w'].
  cbn in *. now split.
Qed.
